(** * gui_dashboard.py: the monitoring core of the task manager

    A shallow embedding of the non-visual part of [gui_dashboard.py]:
    the health score, the failed-login scanner, the shell-history safety
    check, and the sampling step that computes network rates and feeds the
    rolling history deques.

    Numbers.  Python [int] values (byte counters, return codes, counts, the
    score) are [Z].  Python [float] values (percentages, timestamps, rates)
    are modelled by the rational they denote, [Q]: the arithmetic is exact,
    so float rounding, [inf] and [nan] are outside the model.

    Text.  A [str] is a [string] whose characters are code points below 256.

    Environment.  [os.path.exists], [subprocess.run] and reading a file are
    parameters of the development; a call that raises returns [Raise]. *)

From Stdlib Require Import ZArith QArith Qround Qminmax Lia Lqa.
From Stdlib Require Import List String Ascii Bool.
From Stdlib Require Import DecimalString Permutation Sorted.
Import ListNotations.

Set Implicit Arguments.

(** ** Python builtins *)

Module Py.

(** [int(x)] on a float: the integer part, rounding toward zero. *)
Definition int (x : Q) : Z := Z.quot (Qnum x) (Zpos (Qden x)).

(** [x in (0, 1)] on an [int]. *)
Definition in_0_1 (n : Z) : bool := (n =? 0)%Z || (n =? 1)%Z.

(** A call either returns a value or raises an exception. *)
Inductive Exc (A : Type) : Type :=
| Val (a : A)
| Raise.
Arguments Raise {A}.

Definition bind {A B} (m : Exc A) (k : A -> Exc B) : Exc B :=
  match m with
  | Val a => k a
  | Raise => Raise
  end.

(** [try: body / except Exception: handler]. *)
Definition try_except {A} (body : Exc A) (handler : A) : A :=
  match body with
  | Val a => a
  | Raise => handler
  end.

(** [str.isspace] on one character: tab to carriage return, the four
    separators 0x1c to 0x1f, space, and in Latin-1 0x85 and 0xa0. *)
Definition isspace (c : ascii) : bool :=
  let n := nat_of_ascii c in
  ((9 <=? n) && (n <=? 13) || (28 <=? n) && (n <=? 32)
   || (n =? 133) || (n =? 160))%nat.

Fixpoint lstrip (s : string) : string :=
  match s with
  | EmptyString => EmptyString
  | String c s' => if isspace c then lstrip s' else s
  end.

Definition is_empty (s : string) : bool :=
  match s with
  | EmptyString => true
  | String _ _ => false
  end.

Fixpoint rstrip (s : string) : string :=
  match s with
  | EmptyString => EmptyString
  | String c s' =>
      let r := rstrip s' in
      if isspace c && is_empty r then EmptyString else String c r
  end.

(** [s.strip()]. *)
Definition strip (s : string) : string := rstrip (lstrip s).

(** [s.startswith(p)] *)
Fixpoint startswith (s p : string) : bool :=
  match p, s with
  | EmptyString, _ => true
  | String _ _, EmptyString => false
  | String a p', String b s' => Ascii.eqb a b && startswith s' p'
  end.

(** [sub in s] on strings: [sub] starts at some position of [s]. *)
Fixpoint contains (sub s : string) : bool :=
  match s with
  | EmptyString => startswith EmptyString sub
  | String _ s' => startswith s sub || contains sub s'
  end.

Definition digit_of (c : ascii) : option Z :=
  let n := nat_of_ascii c in
  if ((48 <=? n) && (n <=? 57))%nat then Some (Z.of_nat (n - 48)) else None.

(** The digits of a decimal literal; one underscore may stand between two
    digits.  [after_digit] tells whether the previous character was one. *)
Fixpoint digits (s : string) (acc : Z) (after_digit : bool) : Exc Z :=
  match s with
  | EmptyString => if after_digit then Val acc else Raise
  | String c s' =>
      match digit_of c with
      | Some d => digits s' (10 * acc + d)%Z true
      | None =>
          if Ascii.eqb c "_" && after_digit then digits s' acc false
          else Raise
      end
  end.

(** [int(s)] on a string, base 10: surrounding white space is dropped, a
    sign may lead, anything else raises [ValueError].  The interpreter's
    limit on the number of digits is not modelled. *)
Definition int_of_str (s : string) : Exc Z :=
  match strip s with
  | EmptyString => Raise
  | String c r =>
      if Ascii.eqb c "+" then digits r 0 false
      else if Ascii.eqb c "-"
           then bind (digits r 0 false) (fun n => Val (- n)%Z)
           else digits (String c r) 0 false
  end.

(** [l[-n:]] for a positive [n]: the last [n] items, or all of them. *)
Definition last_n {A} (n : nat) (l : list A) : list A :=
  List.skipn (List.length l - n) l.

(** [bool(s)]: a string is true when it is not empty. *)
Definition truthy (s : string) : bool := negb (is_empty s).

(** [s.split()]: the maximal runs of characters that are not white space. *)
Fixpoint split (s : string) : list string :=
  match s with
  | EmptyString => []
  | String c s' =>
      if isspace c then split s'
      else
        match s' with
        | EmptyString => [String c EmptyString]
        | String c' _ =>
            if isspace c' then String c EmptyString :: split s'
            else
              match split s' with
              | word :: words => String c word :: words
              | [] => [String c EmptyString]
              end
        end
  end.

(** [str(n)] on an [int]: decimal digits, with a minus sign when negative. *)
Definition str_of_int (n : Z) : string := NilZero.string_of_int (Z.to_int n).

(** [s.endswith(p)] *)
Definition endswith (s p : string) : bool :=
  let n := String.length s in
  let k := String.length p in
  (k <=? n)%nat && String.eqb (substring (n - k) k s) p.

(** [os.path.join(a, b)] on a POSIX host: an absolute [b] replaces [a];
    otherwise one slash separates the two, unless [a] is empty or already
    ends with one. *)
Definition path_join (a b : string) : string :=
  if startswith b "/" then b
  else if is_empty a || endswith a "/" then append a b
  else append a (String "/" b).

End Py.

Notation "x <- m ;; k" := (Py.bind m (fun x => k))
  (at level 61, m at next level, right associativity).

(** ** calculate_health_score *)

Definition calculate_health_score
    (cpu_percent ram_percent disk_percent : Q) (failed_logins : Z) : Z :=
  let score := 100%Z in
  let score := (score - Py.int (cpu_percent / 2))%Z in
  let score := (score - Py.int (ram_percent / 3))%Z in
  let score := (score - Py.int (disk_percent / 4))%Z in
  let score :=
    if (failed_logins >? 0)%Z
    then (score - Z.min 20 (failed_logins * 2))%Z
    else score in
  let score := if (score <? 0)%Z then 0%Z else score in
  let score := if (score >? 100)%Z then 100%Z else score in
  score.

(** *** The score as section 4.6 of the specification words it *)

(** The login penalty: min(20, 2 * failed_logins) for a positive count. *)
Definition login_penalty (failed_logins : Z) : Z :=
  if (0 <? failed_logins)%Z then Z.min 20 (failed_logins * 2) else 0%Z.

Definition clamp_0_100 (n : Z) : Z := Z.max 0 (Z.min 100 n).

(** Every resource penalty is a floor. *)
Definition health_score_floor_spec
    (cpu_percent ram_percent disk_percent : Q) (failed_logins : Z) : Z :=
  clamp_0_100 (100 - Qfloor (cpu_percent / 2) - Qfloor (ram_percent / 3)
                   - Qfloor (disk_percent / 4) - login_penalty failed_logins).

(** Rounding toward zero, written with floor and ceiling. *)
Definition round_toward_zero (x : Q) : Z :=
  if Qle_bool 0 x then Qfloor x else Qceiling x.

(** The same formula with every resource penalty rounded toward zero. *)
Definition health_score_trunc_spec
    (cpu_percent ram_percent disk_percent : Q) (failed_logins : Z) : Z :=
  clamp_0_100 (100 - round_toward_zero (cpu_percent / 2)
                   - round_toward_zero (ram_percent / 3)
                   - round_toward_zero (disk_percent / 4)
                   - login_penalty failed_logins).

Local Open Scope string_scope.

(** ** The host: what the program asks of the operating system *)

(** The argument of [subprocess.run]: an argument vector, or one command
    line handed to the shell ([shell=True]). *)
Inductive Cmd : Type :=
| Argv (args : list string)
| Shell (cmd : string).

Record CompletedProcess : Type :=
  { returncode : Z;
    stdout : string }.

Record Host : Type :=
  { expanduser : string -> string;
    path_exists : string -> bool;
    (** [subprocess.run(..., capture_output=True, text=True)] *)
    subprocess_run : Cmd -> Py.Exc CompletedProcess;
    (** [open(path, "r", errors="ignore")] and the lines read from it,
        each with its line end *)
    read_lines : string -> Py.Exc (list string) }.

(** ** get_history_file *)

Definition get_history_file (h : Host) : option string :=
  let bash_hist := expanduser h "~/.bash_history" in
  let zsh_hist := expanduser h "~/.zsh_history" in
  if path_exists h bash_hist then Some bash_hist
  else if path_exists h zsh_hist then Some zsh_hist
  else None.

(** ** get_security_info *)

Definition auth_log : string := "/var/log/auth.log".

Definition grep_cmd : Cmd := Argv ["grep"; "-c"; "Failed password"; auth_log].

Definition journal_cmd : Cmd :=
  Shell "journalctl -p 3 -xb | grep -c 'Failed password'".

Definition get_security_info (h : Host) : string * Z :=
  if path_exists h auth_log then
    Py.try_except
      (result <- subprocess_run h grep_cmd ;;
       if negb (Py.in_0_1 (returncode result))
       then Py.Val ("Error reading auth.log", 0%Z)
       else
         let text := Py.strip (stdout result) in
         count <- (if Py.is_empty text then Py.Val 0%Z
                   else Py.int_of_str text) ;;
         Py.Val ("OK", count))
      ("Error parsing auth.log", 0%Z)
  else
    Py.try_except
      (result <- subprocess_run h journal_cmd ;;
       if negb (Py.in_0_1 (returncode result))
       then Py.Val ("Error reading journal", 0%Z)
       else
         let count_str := Py.strip (stdout result) in
         count <- (if Py.is_empty count_str then Py.Val 0%Z
                   else Py.int_of_str count_str) ;;
         Py.Val ("OK", count))
      ("No auth data available", 0%Z).

(** What [grep -c pattern] answers on the lines it reads: it prints the
    number of lines that hold the pattern, and ends with code 0 when there
    is such a line and with code 1 when there is none. *)
Definition grep_c (pattern : string) (lines : list string)
  : CompletedProcess :=
  let count := List.length (filter (Py.contains pattern) lines) in
  {| returncode := if (count =? 0)%nat then 1%Z else 0%Z;
     stdout := Py.str_of_int (Z.of_nat count) ++ String "010" "" |}.

(** What the shell answers for [journal_cmd].  The status of a pipeline is
    that of its last command, here grep.  [journal] is what journalctl
    prints, [None] when journalctl cannot be run: its failure goes to the
    standard error and grep reads nothing. *)
Definition journal_pipeline (journal : option (list string))
  : CompletedProcess :=
  grep_c "Failed password"
    match journal with
    | Some lines => lines
    | None => []
    end.

(** The one query a call consults. *)
Definition consulted (h : Host) : Cmd :=
  if path_exists h auth_log then grep_cmd else journal_cmd.

(** The three-valued status of section 3 of the specification, read off
    the message the code returns. *)
Inductive SecurityStatus : Type :=
| Ok
| SourceUnavailable
| ReadError.

Definition security_status (message : string) : SecurityStatus :=
  if String.eqb message "OK" then Ok
  else if String.eqb message "No auth data available" then SourceUnavailable
  else ReadError.

(** ** get_safety_check *)

Definition dangerous_keywords : list string :=
  ["rm -rf /"; "mkfs"; ":(){ :|:& };:"; "chmod 777"; "dd if="].

(** [[l.strip() for l in f if l.strip()]] *)
Definition nonblank_lines (f : list string) : list string :=
  map Py.strip (filter (fun l => negb (Py.is_empty (Py.strip l))) f).

(** The inner loop: the first keyword that occurs in [line]. *)
Fixpoint first_keyword_in (keywords : list string) (line : string)
  : option string :=
  match keywords with
  | [] => None
  | bad :: rest =>
      if Py.contains bad line then Some bad else first_keyword_in rest line
  end.

(** The outer loop: it returns at the first line with a keyword. *)
Fixpoint scan_recent (recent : list string) : option string :=
  match recent with
  | [] => None
  | line :: rest =>
      match first_keyword_in dangerous_keywords line with
      | Some bad => Some bad
      | None => scan_recent rest
      end
  end.

Definition warning (bad : string) : string :=
  ("WARNING: Dangerous command found -> " ++ bad)%string.

Definition all_clear : string := "No extremely dangerous command found".

Definition get_safety_check (h : Host) : string :=
  match get_history_file h with
  | None => "History file not found"
  | Some history_file =>
      (* [if not history_file]: an empty path is as good as [None] *)
      if Py.is_empty history_file then "History file not found"
      else
        match read_lines h history_file with
        | Py.Raise => "Error reading history"
        | Py.Val f =>
            let lines := nonblank_lines f in
            let recent := Py.last_n 80 lines in
            match scan_recent recent with
            | Some bad => warning bad
            | None => all_clear
            end
        end
  end.

(** [sub] is a contiguous slice of [s]: what [sub in s] decides. *)
Definition occurs_in (sub s : string) : Prop :=
  exists before after, s = before ++ sub ++ after.

(** No dangerous keyword occurs in the line. *)
Definition clean (line : string) : Prop :=
  forall bad, In bad dangerous_keywords -> ~ occurs_in bad line.

(** ** The history deques *)

(** [collections.deque] with a [maxlen]. *)
Record Deque : Type :=
  { items : list Q;
    maxlen : nat }.

(** [d.append(x)]: the item is added on the right; a deque that is then
    longer than [maxlen] drops its leftmost item. *)
Definition deque_append (d : Deque) (x : Q) : Deque :=
  let grown := (items d ++ [x])%list in
  {| items := if (maxlen d <? List.length grown)%nat then List.tl grown
              else grown;
     maxlen := maxlen d |}.

(** [deque(iterable, maxlen=n)]: the items are appended one by one. *)
Definition deque_new (iterable : list Q) (n : nat) : Deque :=
  fold_left deque_append iterable {| items := []; maxlen := n |}.

(** ** TaskStudyManager: the sampling state *)

(** [psutil.net_io_counters()] *)
Record NetIO : Type :=
  { bytes_sent : Z;
    bytes_recv : Z }.

(** What one call of [update_system_info] reads from the host. *)
Record Readings : Type :=
  { cpu : Q;              (* psutil.cpu_percent(interval=0.2) *)
    ram_percent : Q;      (* psutil.virtual_memory().percent *)
    disk_percent : Q;     (* psutil.disk_usage('/').percent *)
    now : Q;              (* time.time() *)
    counters : NetIO }.   (* psutil.net_io_counters() *)

Record Manager : Type :=
  { history_len : nat;
    cpu_history : Deque;
    ram_history : Deque;
    net_down_history : Deque;
    net_up_history : Deque;
    last_net : NetIO;
    last_net_time : Q;
    net_down : Q;
    net_up : Q;
    (** set by the first [update_system_info]; read with [getattr] *)
    latest_cpu : option Q;
    latest_ram : option Q;
    latest_disk : option Q }.

(** The fields [__init__] sets before the first refresh. *)
Definition init (first_counters : NetIO) (first_time : Q) : Manager :=
  let history_len := 60%nat in
  {| history_len := history_len;
     cpu_history := deque_new (repeat 0 history_len) history_len;
     ram_history := deque_new (repeat 0 history_len) history_len;
     net_down_history := deque_new (repeat 0 history_len) history_len;
     net_up_history := deque_new (repeat 0 history_len) history_len;
     last_net := first_counters;
     last_net_time := first_time;
     net_down := 0;
     net_up := 0;
     latest_cpu := None;
     latest_ram := None;
     latest_disk := None |}.

(** [a > b] on floats. *)
Definition Qgt_bool (a b : Q) : bool := negb (Qle_bool a b).

(** [dt = now - self.last_net_time if now > self.last_net_time else 1.0] *)
Definition elapsed_or_one (now last : Q) : Q :=
  if Qgt_bool now last then now - last else 1.

(** [(current - previous) / dt / 1024.0] *)
Definition rate (current previous : Z) (dt : Q) : Q :=
  inject_Z (current - previous) / dt / 1024.

Definition update_system_info (self : Manager) (r : Readings) : Manager :=
  let dt := elapsed_or_one (now r) (last_net_time self) in
  let net_down :=
    rate (bytes_recv (counters r)) (bytes_recv (last_net self)) dt in
  let net_up :=
    rate (bytes_sent (counters r)) (bytes_sent (last_net self)) dt in
  {| history_len := history_len self;
     cpu_history := deque_append (cpu_history self) (cpu r);
     ram_history := deque_append (ram_history self) (ram_percent r);
     net_down_history := deque_append (net_down_history self) net_down;
     net_up_history := deque_append (net_up_history self) net_up;
     last_net := counters r;
     last_net_time := now r;
     net_down := net_down;
     net_up := net_up;
     latest_cpu := Some (cpu r);
     latest_ram := Some (ram_percent r);
     latest_disk := Some (disk_percent r) |}.

(** The states the manager goes through, one per sampling call. *)
Fixpoint trace (self : Manager) (rs : list Readings) : list Manager :=
  match rs with
  | [] => []
  | r :: rest =>
      let self' := update_system_info self r in
      self' :: trace self' rest
  end.

(** The manager after all the sampling calls. *)
Definition run (self : Manager) (rs : list Readings) : Manager :=
  fold_left update_system_info rs self.

(** ** update_panels: the security panel and the health score *)

(** [getattr(self, name, 0)] *)
Definition getattr_or_0 (field : option Q) : Q :=
  match field with
  | Some v => v
  | None => 0
  end.

Record Panels : Type :=
  { sec_status : string;
    (** the count handed to [calculate_health_score] *)
    failed : Z;
    health : Z }.

(** The body of [update_panels] from the security panel on, given what
    [get_security_info] returned. *)
Definition update_panels_from (sec : string * Z) (self : Manager) : Panels :=
  let '(sec_status, failed) := sec in
  let failed := if negb (String.eqb sec_status "OK") then 0%Z else failed in
  let health :=
    calculate_health_score
      (getattr_or_0 (latest_cpu self))
      (getattr_or_0 (latest_ram self))
      (getattr_or_0 (latest_disk self))
      failed in
  {| sec_status := sec_status; failed := failed; health := health |}.

Definition update_panels (h : Host) (self : Manager) : Panels :=
  update_panels_from (get_security_info h) self.

(** ** The rate as section 4.1 of the specification words it *)

(** The counter difference over the elapsed time, which is floored at
    [eps]; [unit] is the number of bytes in one unit of the rate. *)
Definition rate_floor_spec (eps unit : Q) (current previous : Z)
    (now last : Q) : Q :=
  inject_Z (current - previous) / Qmax (now - last) eps / unit.

(** ** Sample states and readings, used in the examples below *)

(** A fresh manager whose counters are zero at time 10. *)
Definition at_rest : Manager :=
  init {| bytes_sent := 0; bytes_recv := 0 |} 10.

(** A reading at time [t] with [recv] bytes received so far. *)
Definition sample_at (t : Q) (recv : Z) : Readings :=
  {| cpu := 5; ram_percent := 40; disk_percent := 30; now := t;
     counters := {| bytes_sent := 0; bytes_recv := recv |} |}.

(** Sixty-one sampling calls, the cpu reading going 0, 1, ..., 60. *)
Definition ramp : list Readings :=
  map (fun n : nat =>
         {| cpu := inject_Z (Z.of_nat n); ram_percent := 40;
            disk_percent := 30; now := inject_Z (Z.of_nat (11 + n));
            counters := {| bytes_sent := 0;
                           bytes_recv := Z.of_nat (1024 * n) |} |})
      (seq 0 61).

(** A host with or without the auth log, with given outcomes of the two
    queries, and a bash history holding the given lines. *)
Definition host_with (log_exists : bool)
    (grep journal : Py.Exc CompletedProcess) (history : list string) : Host :=
  {| expanduser := fun p => p;
     path_exists := fun p =>
       if String.eqb p auth_log then log_exists
       else String.eqb p "~/.bash_history";
     subprocess_run := fun c =>
       match c with
       | Argv _ => grep
       | Shell _ => journal
       end;
     read_lines := fun _ => Py.Val history |}.

Definition completed (code : Z) (out : string) : Py.Exc CompletedProcess :=
  Py.Val {| returncode := code; stdout := out |}.

(** A history file of eighty commands, each on a line of its own: a
    [mkfs] at position 10, a [chmod 777] at position 40, [ls -la] elsewhere. *)
Definition eighty_commands : list string :=
  map (fun n : nat =>
         ((if (n =? 10)%nat then "mkfs /dev/sda"
           else if (n =? 40)%nat then "chmod 777 /etc"
           else "ls -la") ++ String "010" "")%string)
      (seq 0 80).

(** * The rest of the program *)

(** ** get_disk_usage *)

(** [psutil.disk_usage('/')] *)
Record DiskUsage : Type :=
  { du_total : Z;
    du_used : Z;
    du_percent : Q }.

Definition get_disk_usage (du : DiskUsage) : Z * Z * Q :=
  let used_gb := (du_used du / 1024 ^ 3)%Z in
  let total_gb := (du_total du / 1024 ^ 3)%Z in
  let percent := du_percent du in
  (used_gb, total_gb, percent).

(** ** _color_for_usage *)

(** [a < b] on floats. *)
Definition Qlt_bool (a b : Q) : bool := negb (Qle_bool b a).

Definition color_for_usage (value : Q) : string :=
  if Qlt_bool value 50 then "#00cc66"
  else if Qlt_bool value 80 then "#ff9900"
  else "#ff3333".

(** The foreground [update_panels] gives the health label:
    [self._color_for_usage(100 - health)]. *)
Definition health_label_foreground (h : Host) (self : Manager) : string :=
  color_for_usage (inject_Z (100 - health (update_panels h self))).

(** ** get_study_stats *)

(** A [dict] from commands to counts, in insertion order. *)
Definition Freq : Type := list (string * Z).

(** [freq.get(cmd, 0)] *)
Fixpoint freq_get (freq : Freq) (cmd : string) : Z :=
  match freq with
  | [] => 0%Z
  | (c, n) :: rest => if String.eqb c cmd then n else freq_get rest cmd
  end.

(** [freq[cmd] = v]: a key that is present keeps its place, a new key goes
    last. *)
Fixpoint freq_set (freq : Freq) (cmd : string) (v : Z) : Freq :=
  match freq with
  | [] => [(cmd, v)]
  | (c, n) :: rest =>
      if String.eqb c cmd then (c, v) :: rest
      else (c, n) :: freq_set rest cmd v
  end.

(** One turn of the counting loop. *)
Definition count_line (freq : Freq) (line : string) : Freq :=
  match Py.split line with
  | [] => freq
  | cmd :: _ => freq_set freq cmd (freq_get freq cmd + 1)%Z
  end.

Definition count_commands (lines : list string) : Freq :=
  fold_left count_line lines [].

(** [sorted(items, key=lambda x: x[1], reverse=True)]: the sort is stable,
    so items with equal counts keep the order they had. *)
Fixpoint insert_by_count (item : string * Z) (sorted : list (string * Z))
  : list (string * Z) :=
  match sorted with
  | [] => [item]
  | other :: rest =>
      if (snd item <? snd other)%Z then other :: insert_by_count item rest
      else item :: sorted
  end.

Definition sorted_by_count (items : list (string * Z)) : list (string * Z) :=
  fold_right insert_by_count [] items.

(** [top_cmds]: the first three of the sorted items. *)
Definition top_cmds (lines : list string) : list (string * Z) :=
  firstn 3 (sorted_by_count (count_commands lines)).

(** The f-string that names a command with its count. *)
Definition cmd_name (item : string * Z) : string :=
  (fst item ++ " (" ++ Py.str_of_int (snd item) ++ ")")%string.

Definition get_study_stats (h : Host) : string * Z * list string :=
  match get_history_file h with
  | None => ("History file not found", 0%Z, [])
  | Some history_file =>
      if negb (Py.truthy history_file) then ("History file not found", 0%Z, [])
      else
        match read_lines h history_file with
        | Py.Raise => ("Error reading history", 0%Z, [])
        | Py.Val f =>
            let lines := nonblank_lines f in
            let total_cmds := Z.of_nat (List.length lines) in
            let top_cmd_names := map cmd_name (top_cmds lines) in
            ("OK", total_cmds, top_cmd_names)
        end
  end.

(** The order [sorted] leaves the items in: counts do not go up. *)
Definition count_desc (a b : string * Z) : Prop := (snd b <= snd a)%Z.

(** The items with count [k], in the order of the list. *)
Definition with_count (k : Z) (items : list (string * Z))
  : list (string * Z) :=
  filter (fun item => (snd item =? k)%Z) items.

(** The sum of all counts. *)
Definition total_count (freq : Freq) : Z :=
  fold_right Z.add 0%Z (map snd freq).

(** The first word of each line that has one. *)
Definition first_words (lines : list string) : list string :=
  flat_map (fun line => firstn 1 (Py.split line)) lines.

(** ** populate_processes *)

(** [proc.info] of one process. *)
Record ProcInfo : Type :=
  { info_pid : Z;
    info_name : string;
    info_cpu_percent : option Q;
    info_memory_percent : option Q }.

(** A row of the process table.  The cpu and memory cells hold the numbers
    the table prints with one decimal. *)
Record Row : Type :=
  { row_pid : Z;
    row_name : string;
    row_cpu : Q;
    row_mem : Q;
    row_tag : string }.

Definition cpu_tag (cpu : Q) : string :=
  if Qlt_bool cpu 20 then "cpu_low"
  else if Qlt_bool cpu 50 then "cpu_mid"
  else "cpu_high".

(** The body of the loop for one process. *)
Definition process_row (info : ProcInfo) : Row :=
  let cpu := match info_cpu_percent info with Some c => c | None => 0 end in
  let mem := match info_memory_percent info with Some m => m | None => 0 end in
  {| row_pid := info_pid info; row_name := info_name info;
     row_cpu := cpu; row_mem := mem; row_tag := cpu_tag cpu |}.

(** The old rows are deleted, then one row is inserted per process; a
    process whose reading raises [NoSuchProcess] or [AccessDenied] is
    passed over. *)
Fixpoint populate_processes (procs : list (Py.Exc ProcInfo)) : list Row :=
  match procs with
  | [] => []
  | Py.Raise :: rest => populate_processes rest
  | Py.Val info :: rest => process_row info :: populate_processes rest
  end.

(** ** _draw_line_graph and update_graphs *)

(** A piece of an f-string: text, or a float printed with one decimal. *)
Inductive Part : Type :=
| Lit (s : string)
| Fixed1 (x : Q).

Inductive CanvasOp : Type :=
| delete_all
| create_rectangle (x0 y0 x1 y1 : Q) (fill outline : string)
| create_line (x1 y1 x2 y2 : Q) (fill : string) (width : Z)
| create_text (x y : Q) (anchor fill : string) (text : list Part).

(** [max(a, b)]: the first argument, unless the second is greater. *)
Definition max2 (a b : Q) : Q := if Qgt_bool b a then b else a.

(** [max(data)]; on an empty list it raises [ValueError]. *)
Definition max_list (data : list Q) : Py.Exc Q :=
  match data with
  | [] => Py.Raise
  | x :: rest => Py.Val (fold_left max2 rest x)
  end.

(** [data[-1]]; on an empty list it raises [IndexError]. *)
Definition last_item (data : list Q) : Py.Exc Q :=
  match rev data with
  | [] => Py.Raise
  | x :: _ => Py.Val x
  end.

(** The rectangle and the three grid lines every graph starts with. *)
Definition graph_frame (W H : Z) : list CanvasOp :=
  [delete_all;
   create_rectangle 0 0 (inject_Z W) (inject_Z H) "#101010" "#444444"]
  ++ map (fun i : Z =>
            let y := inject_Z (i * H) / 4 in
            create_line 0 y (inject_Z W) y "#222222" 1)
         [1%Z; 2%Z; 3%Z].

(** The loop over [enumerate(data)] that builds [points]. *)
Definition graph_points (H : Z) (step_x scale_y : Q) (data : list Q)
  : list (Q * Q) :=
  map (fun '(i, value) =>
         (inject_Z (Z.of_nat i) * step_x,
          inject_Z H - 10 - value * scale_y))
      (combine (seq 0 (List.length data)) data).

(** The loop over [range(1, len(points))] that joins the points. *)
Definition graph_lines (points : list (Q * Q)) (fill : string)
  : list CanvasOp :=
  map (fun i : nat =>
         let '(x1, y1) := nth (i - 1) points (0, 0) in
         let '(x2, y2) := nth i points (0, 0) in
         create_line x1 y1 x2 y2 fill 2)
      (seq 1 (List.length points - 1)).

(** The scale of [_draw_line_graph]:
    [max(max_value, max(data) if data else 0.0, 1.0)]. *)
Definition graph_max_val (max_value : Q) (data : list Q) : Q :=
  let data_max := match max_list data with Py.Val m => m | Py.Raise => 0 end in
  max2 (max2 max_value data_max) 1.

(** The points of [_draw_line_graph], for data of two items or more. *)
Definition line_graph_points (W H : Z) (data : list Q) (max_value : Q)
  : list (Q * Q) :=
  let max_val := graph_max_val max_value data in
  let scale_y := inject_Z (H - 25) / max_val in
  let step_x := inject_Z W / inject_Z (Z.of_nat (List.length data) - 1) in
  graph_points H step_x scale_y data.

(** What [_draw_line_graph] puts on the canvas.  A call that raises is
    [Py.Raise]; what it drew before is not kept. *)
Definition draw_line_graph (W H : Z) (data : list Q) (max_value : Q)
    (line_color title unit extra_text : string) : Py.Exc (list CanvasOp) :=
  latest <- last_item data ;;
  let ops :=
    (graph_frame W H
     ++ [create_text 10 10 "nw" "#ffffff"
           [Lit title; Lit ": "; Fixed1 latest; Lit unit; Lit " ";
            Lit extra_text]])%list in
  if (List.length data <? 2)%nat then Py.Val ops
  else
    let points := line_graph_points W H data max_value in
    Py.Val (ops ++ graph_lines points line_color)%list.

(** The scale of the network graph: the greatest of all rates, at least 1. *)
Definition net_max_val (data_down data_up : list Q) : Q :=
  let all_vals := (data_down ++ data_up)%list in
  let max_val := match max_list all_vals with Py.Val m => m | Py.Raise => 0 end in
  max2 max_val 1.

Definition net_step_x (W : Z) (data_down : list Q) : Q :=
  inject_Z W
  / inject_Z (if (1 <? List.length data_down)%nat
              then Z.of_nat (List.length data_down) - 1 else 1).

(** The points of one line of the network graph; both lines are drawn with
    the scale and the step computed from the two lists. *)
Definition net_points (W H : Z) (data_down data_up data : list Q)
  : list (Q * Q) :=
  let max_val := net_max_val data_down data_up in
  let scale_y := inject_Z (H - 25) / max_val in
  let step_x := net_step_x W data_down in
  graph_points H step_x scale_y data.

Record Graphs : Type :=
  { cpu_canvas : list CanvasOp;
    ram_canvas : list CanvasOp;
    net_canvas : list CanvasOp }.

(** [W] and [H] are the size of the cpu and ram canvases, [Wnet] the width
    of the network canvas. *)
Definition update_graphs (W H Wnet : Z) (self : Manager) : Py.Exc Graphs :=
  cpu_ops <- draw_line_graph W H (items (cpu_history self)) 100
               "#00cc66" "CPU" "%" "" ;;
  ram_ops <- draw_line_graph W H (items (ram_history self)) 100
               "#cc66ff" "RAM" "%" "" ;;
  let data_down := items (net_down_history self) in
  let data_up := items (net_up_history self) in
  let net_ops :=
    (graph_frame Wnet H
     ++ graph_lines (net_points Wnet H data_down data_up data_down) "#3399ff"
     ++ graph_lines (net_points Wnet H data_down data_up data_up) "#ff9933"
     ++ [create_text 10 10 "nw" "#ffffff"
           [Lit "Net Down: "; Fixed1 (net_down self); Lit " KB/s | Up: ";
            Fixed1 (net_up self); Lit " KB/s"];
         create_text (inject_Z (Wnet - 10)) (inject_Z (H - 10)) "se" "#3399ff"
           [Lit "Blue=Down, Orange=Up"]])%list in
  Py.Val {| cpu_canvas := cpu_ops; ram_canvas := ram_ops;
            net_canvas := net_ops |}.

(** ** refresh_all *)



(** ** kill_selected_process and backup_projects *)

Inductive Dialog : Type :=
| showwarning (title message : string)
| showinfo (title message : string)
| showerror (title message : string)
| askyesno (title message : string).

(** What a button handler does, in order. *)
Inductive Event : Type :=
| Show (d : Dialog)
| Terminate (pid : Z)
| Repopulate
| Run (cmd : Cmd).

(** The two errors of [psutil] the handler catches, and any other one. *)
Inductive PsError : Type :=
| NoSuchProcess
| AccessDenied
| OtherError.

Record KillEnv : Type :=
  { (** the pid cell of each selected row, [selection()] order *)
    selected : list Z;
    (** [psutil.Process(pid)] *)
    process : Z -> option PsError;
    (** [p.name()] *)
    process_name : Z -> string + PsError;
    (** the answer to the confirmation dialog *)
    answer : bool;
    (** [p.terminate()] *)
    terminate : Z -> option PsError }.

(** The [except] clauses: the two errors caught become a dialog, any other
    one leaves the handler. *)
Definition kill_except (e : PsError) : list Event * option PsError :=
  match e with
  | NoSuchProcess =>
      ([Show (showerror "Error" "Process no longer exists.")], None)
  | AccessDenied =>
      ([Show (showerror "Error" "Access denied. Try running as root.")], None)
  | OtherError => ([], Some OtherError)
  end.

(** The events of the handler, and the error that leaves it, if any. *)
Definition kill_selected_process (env : KillEnv)
  : list Event * option PsError :=
  match selected env with
  | [] =>
      ([Show (showwarning "No selection" "Please select a process first.")],
       None)
  | pid :: _ =>
      match process env pid with
      | Some e => kill_except e
      | None =>
          match process_name env pid with
          | inr e => kill_except e
          | inl name =>
              let question :=
                Show (askyesno "Confirm"
                        ("End process " ++ name ++ " (PID "
                         ++ Py.str_of_int pid ++ ")?")) in
              if answer env then
                match terminate env pid with
                | Some e =>
                    let '(events, err) := kill_except e in
                    (question :: Terminate pid :: events, err)
                | None =>
                    ([question; Terminate pid;
                      Show (showinfo "Done"
                              ("Process " ++ name ++ " terminated."));
                      Repopulate], None)
                end
              else ([question], None)
          end
      end
  end.

Record BackupEnv : Type :=
  { (** [os.path.expanduser("~")] *)
    home : string;
    backup_path_exists : string -> bool;
    (** the folder picked in the dialog, empty when it is cancelled *)
    backup_dir : string;
    (** [datetime.now().strftime("%Y%m%d_%H%M%S")] *)
    timestamp : string;
    (** [subprocess.run(cmd)] *)
    backup_run : Cmd -> Py.Exc CompletedProcess;
    (** the text of the exception, when the run raises *)
    backup_error : string }.

Definition backup_dest (env : BackupEnv) : string :=
  Py.path_join (backup_dir env)
    ("projects_backup_" ++ timestamp env ++ ".tar.gz").

Definition tar_cmd (env : BackupEnv) : Cmd :=
  Argv ["tar"; "-czf"; backup_dest env; "-C"; home env; "Projects"].

(** [subprocess.run(cmd, check=True)]: a return code other than zero
    raises [CalledProcessError]. *)
Definition run_checked (run : Cmd -> Py.Exc CompletedProcess) (cmd : Cmd)
  : Py.Exc CompletedProcess :=
  result <- run cmd ;;
  if (returncode result =? 0)%Z then Py.Val result else Py.Raise.

Definition backup_projects (env : BackupEnv) : list Event :=
  let src := Py.path_join (home env) "Projects" in
  if negb (backup_path_exists env src) then
    [Show (showwarning "Not Found"
             ("'Projects' folder not found in " ++ home env
              ++ ". Create it first."))]
  else if negb (Py.truthy (backup_dir env)) then []
  else
    match run_checked (backup_run env) (tar_cmd env) with
    | Py.Val _ =>
        [Run (tar_cmd env);
         Show (showinfo "Backup Complete"
                 ("Backup saved to:" ++ String "010" (backup_dest env)))]
    | Py.Raise =>
        [Run (tar_cmd env);
         Show (showerror "Error" ("Backup failed: " ++ backup_error env))]
    end.

(** The question the handler asks before it ends a process. *)
Definition kill_question (name : string) (pid : Z) : Event :=
  Show (askyesno "Confirm"
          ("End process " ++ name ++ " (PID " ++ Py.str_of_int pid ++ ")?")).

(** The file name of a backup made at the given time. *)
Definition backup_name (env : BackupEnv) : string :=
  "projects_backup_" ++ timestamp env ++ ".tar.gz".

(** * Properties *)

(** ** Facts about [Py.int] *)

Lemma int_nonneg_floor (x : Q) : 0 <= x -> Py.int x = Qfloor x.
Proof.
  destruct x as [n d]; unfold Qle, Py.int, Qfloor; simpl; intros H.
  apply Z.quot_div_nonneg; lia.
Qed.

Lemma int_neg_ceiling (x : Q) : x <= 0 -> Py.int x = Qceiling x.
Proof.
  destruct x as [n d]; unfold Qle, Py.int, Qceiling, Qfloor; simpl; intros H.
  rewrite <- (Z.opp_involutive n) at 1.
  rewrite Z.quot_opp_l by lia.
  f_equal. apply Z.quot_div_nonneg; lia.
Qed.

Lemma int_round_toward_zero (x : Q) : Py.int x = round_toward_zero x.
Proof.
  unfold round_toward_zero.
  destruct (Qle_bool 0 x) eqn:E.
  - apply int_nonneg_floor, Qle_bool_iff, E.
  - apply int_neg_ceiling.
    apply Qlt_le_weak, Qnot_le_lt. intros H.
    apply Qle_bool_iff in H. congruence.
Qed.

Lemma int_le_mono (x y : Q) : x <= y -> (Py.int x <= Py.int y)%Z.
Proof.
  destruct x as [n d], y as [m e]; unfold Qle, Py.int; simpl; intros H.
  rewrite <- (Z.quot_mul_cancel_r n (Zpos d) (Zpos e)) by lia.
  rewrite <- (Z.quot_mul_cancel_l m (Zpos e) (Zpos d)) by lia.
  apply Z.quot_le_mono; lia.
Qed.

Lemma login_penalty_le_mono (a b : Z) :
  (a <= b)%Z -> (login_penalty a <= login_penalty b)%Z.
Proof.
  unfold login_penalty; intros H.
  destruct (0 <? a)%Z eqn:Ea, (0 <? b)%Z eqn:Eb;
    try apply Z.ltb_lt in Ea; try apply Z.ltb_ge in Ea;
    try apply Z.ltb_lt in Eb; try apply Z.ltb_ge in Eb; lia.
Qed.

(** The straight-line code is the clamped difference. *)
Lemma calculate_health_score_unfold cpu ram disk fl :
  calculate_health_score cpu ram disk fl =
  clamp_0_100 (100 - Py.int (cpu / 2) - Py.int (ram / 3) - Py.int (disk / 4)
                   - login_penalty fl).
Proof.
  unfold calculate_health_score, clamp_0_100, login_penalty; cbv zeta.
  rewrite !Z.gtb_ltb.
  set (base := (100 - Py.int (cpu / 2) - Py.int (ram / 3)
                    - Py.int (disk / 4))%Z).
  destruct (Z.ltb_spec 0 fl).
  - destruct (Z.ltb_spec (base - Z.min 20 (fl * 2)) 0);
      [ destruct (Z.ltb_spec 100 0)
      | destruct (Z.ltb_spec 100 (base - Z.min 20 (fl * 2))) ]; lia.
  - destruct (Z.ltb_spec base 0);
      [ destruct (Z.ltb_spec 100 0) | destruct (Z.ltb_spec 100 base) ]; lia.
Qed.

Lemma Qdiv_le_mono_pos (x y c : Q) : 0 < c -> x <= y -> x / c <= y / c.
Proof.
  intros Hc H. unfold Qdiv. apply Qmult_le_compat_r; [exact H|].
  apply Qlt_le_weak, Qinv_lt_0_compat, Hc.
Qed.

Lemma calculate_health_score_antitone cpu ram disk fl cpu' ram' disk' fl' :
  cpu <= cpu' -> ram <= ram' -> disk <= disk' -> (fl <= fl')%Z ->
  (calculate_health_score cpu' ram' disk' fl'
   <= calculate_health_score cpu ram disk fl)%Z.
Proof.
  intros Hc Hr Hd Hf. rewrite !calculate_health_score_unfold.
  pose proof (int_le_mono (Qdiv_le_mono_pos (c:=2) eq_refl Hc)).
  pose proof (int_le_mono (Qdiv_le_mono_pos (c:=3) eq_refl Hr)).
  pose proof (int_le_mono (Qdiv_le_mono_pos (c:=4) eq_refl Hd)).
  pose proof (login_penalty_le_mono Hf).
  unfold clamp_0_100. lia.
Qed.

(** ** The health score: range, formula, monotonicity *)

(** C1: for every input quadruple, also with percentages that are negative
    or above 100 and with any login count, [calculate_health_score] returns
    an integer between 0 and 100, both included. *)
Theorem calculate_health_score_range cpu ram disk fl :
  (0 <= calculate_health_score cpu ram disk fl <= 100)%Z.
Proof.
  rewrite calculate_health_score_unfold. unfold clamp_0_100. lia.
Qed.

Example calculate_health_score_out_of_domain :
  calculate_health_score 150 (-10) 500 1000 = 0%Z.
Proof. reflexivity. Qed.

(** C3, as the specification states it, fails: with cpu 20 and ram -10 the
    code subtracts 10 and then adds 3 (the quotient -10/3 rounds toward
    zero), giving 93, where the floor formula gives 94. *)
Lemma calculate_health_score_not_floor :
  calculate_health_score 20 (-10) 0 0 = 93%Z /\
  health_score_floor_spec 20 (-10) 0 0 = 94%Z /\
  calculate_health_score 20 (-10) 0 0 <> health_score_floor_spec 20 (-10) 0 0.
Proof. repeat split; vm_compute; congruence. Qed.

(** C3, amended: for every input quadruple the score is 100 minus the
    quotients cpu/2, ram/3 and disk/4, each rounded toward zero (the floor
    when the quotient is not negative, the ceiling when it is), minus
    min(20, 2 * failed_logins) when failed_logins is positive, clamped to
    0..100.  When the three percentages are not negative this is the floor
    formula of the specification.  Inputs (0, 0, 0, 0) give 100 and inputs
    (100, 99, 100, 5) give 0. *)
Theorem calculate_health_score_formula :
  (forall cpu ram disk fl,
      calculate_health_score cpu ram disk fl =
      health_score_trunc_spec cpu ram disk fl) /\
  (forall cpu ram disk fl,
      0 <= cpu -> 0 <= ram -> 0 <= disk ->
      calculate_health_score cpu ram disk fl =
      health_score_floor_spec cpu ram disk fl) /\
  calculate_health_score 0 0 0 0 = 100%Z /\
  calculate_health_score 100 99 100 5 = 0%Z.
Proof.
  split; [| split; [| split; reflexivity]].
  - intros. rewrite calculate_health_score_unfold.
    unfold health_score_trunc_spec. now rewrite !int_round_toward_zero.
  - intros cpu ram disk fl Hc Hr Hd.
    rewrite calculate_health_score_unfold. unfold health_score_floor_spec.
    rewrite !int_nonneg_floor; [reflexivity | | |];
      apply Qle_shift_div_l; (reflexivity || (rewrite Qmult_0_l; assumption)).
Qed.

Lemma calculate_health_score_formula_witness :
  0 <= 37 /\ 0 <= (125 # 2) /\ 0 <= 81 /\
  calculate_health_score 37 (125 # 2) 81 4 =
  health_score_floor_spec 37 (125 # 2) 81 4.
Proof.
  assert (H37 : 0 <= 37) by (unfold Qle; simpl; lia).
  assert (H62 : 0 <= 125 # 2) by (unfold Qle; simpl; lia).
  assert (H81 : 0 <= 81) by (unfold Qle; simpl; lia).
  split; [exact H37 | split; [exact H62 | split; [exact H81 |]]].
  exact (proj1 (proj2 calculate_health_score_formula) 37 (125 # 2) 81 4%Z
           H37 H62 H81).
Defined.

(** C9: the score never increases when one of cpu_percent, ram_percent,
    disk_percent or failed_logins increases and the other three stay as
    they are. *)
Theorem calculate_health_score_monotone :
  (forall cpu cpu' ram disk fl, cpu <= cpu' ->
      (calculate_health_score cpu' ram disk fl
       <= calculate_health_score cpu ram disk fl)%Z) /\
  (forall cpu ram ram' disk fl, ram <= ram' ->
      (calculate_health_score cpu ram' disk fl
       <= calculate_health_score cpu ram disk fl)%Z) /\
  (forall cpu ram disk disk' fl, disk <= disk' ->
      (calculate_health_score cpu ram disk' fl
       <= calculate_health_score cpu ram disk fl)%Z) /\
  (forall cpu ram disk fl fl', (fl <= fl')%Z ->
      (calculate_health_score cpu ram disk fl'
       <= calculate_health_score cpu ram disk fl)%Z).
Proof.
  repeat split; intros;
    apply calculate_health_score_antitone;
    (assumption || apply Qle_refl || apply Z.le_refl).
Qed.

Lemma calculate_health_score_monotone_witness :
  (10 <= 35 /\
   (calculate_health_score 35 40 20 1
    <= calculate_health_score 10 40 20 1)%Z) /\
  ((1 <= 7)%Z /\
   (calculate_health_score 10 40 20 7
    <= calculate_health_score 10 40 20 1)%Z).
Proof.
  destruct calculate_health_score_monotone as [Hcpu [_ [_ Hfl]]].
  split; split.
  - unfold Qle; simpl; lia.
  - apply Hcpu. unfold Qle; simpl; lia.
  - lia.
  - apply Hfl. lia.
Defined.

(** ** The network rates *)

Lemma Qgt_bool_true (a b : Q) : Qgt_bool a b = true <-> b < a.
Proof.
  unfold Qgt_bool. rewrite negb_true_iff. split; intros H.
  - apply Qnot_le_lt. intros Hle. apply Qle_bool_iff in Hle. congruence.
  - destruct (Qle_bool a b) eqn:E; [| reflexivity].
    apply Qle_bool_iff in E. exfalso. apply (Qlt_not_le _ _ H E).
Qed.

Lemma Qgt_bool_false (a b : Q) : Qgt_bool a b = false <-> a <= b.
Proof.
  unfold Qgt_bool. rewrite negb_false_iff. apply Qle_bool_iff.
Qed.

Lemma elapsed_or_one_elapsed (t last : Q) :
  0 < t - last -> elapsed_or_one t last = t - last.
Proof.
  intros H. unfold elapsed_or_one.
  replace (Qgt_bool t last) with true; [reflexivity |].
  symmetry. apply Qgt_bool_true. lra.
Qed.

Lemma elapsed_or_one_one (t last : Q) :
  t - last <= 0 -> elapsed_or_one t last = 1.
Proof.
  intros H. unfold elapsed_or_one.
  replace (Qgt_bool t last) with false; [reflexivity |].
  symmetry. apply Qgt_bool_false. lra.
Qed.

Lemma elapsed_or_one_pos (t last : Q) : 0 < elapsed_or_one t last.
Proof.
  destruct (Qlt_le_dec 0 (t - last)) as [H | H].
  - rewrite elapsed_or_one_elapsed; assumption.
  - rewrite elapsed_or_one_one; [reflexivity | assumption].
Qed.

(** A rate has the sign of the counter difference. *)
Lemma rate_nonneg_iff (current previous : Z) (dt : Q) :
  0 < dt -> (0 <= rate current previous dt <-> (previous <= current)%Z).
Proof.
  intros Hdt. unfold rate, Qdiv.
  assert (Hk : 0 < / dt * / 1024).
  { apply Qmult_lt_0_compat; [apply Qinv_lt_0_compat, Hdt | reflexivity]. }
  rewrite <- Qmult_assoc.
  rewrite <- (Qmult_0_l (/ dt * / 1024)).
  rewrite (Qmult_le_r _ _ _ Hk).
  change 0 with (inject_Z 0). rewrite <- Zle_Qle. lia.
Qed.

Lemma rate_neg_iff (current previous : Z) (dt : Q) :
  0 < dt -> (rate current previous dt < 0 <-> (current < previous)%Z).
Proof.
  intros Hdt. pose proof (rate_nonneg_iff current previous Hdt) as H.
  split; intros Hlt.
  - destruct (Z_lt_le_dec current previous) as [Hz | Hz]; [exact Hz |].
    apply H in Hz. exfalso. apply (Qlt_not_le _ _ Hlt Hz).
  - apply Qnot_le_lt. intros Hle. apply H in Hle. lia.
Qed.

(** C2, as stated, fails: the stored counter is 2048 bytes, the next
    reading one second later is 1024 bytes, and the down rate is -1. *)
Lemma update_system_info_negative_rate :
  let self := init {| bytes_sent := 0; bytes_recv := 2048 |} 10 in
  let r := {| cpu := 5; ram_percent := 40; disk_percent := 30; now := 11;
              counters := {| bytes_sent := 0; bytes_recv := 1024 |} |} in
  (bytes_recv (counters r) < bytes_recv (last_net self))%Z /\
  net_down (update_system_info self r) == -1 /\
  ~ 0 <= net_down (update_system_info self r).
Proof.
  cbv zeta. split; [reflexivity | split; [reflexivity |]].
  intros H. vm_compute in H. apply H. reflexivity.
Qed.

(** C2, amended: on every sampling call each network rate has the sign of
    the counter difference.  It is not negative exactly when the current
    byte counter is at least the stored one, and it is negative when the
    counter went down; nothing clamps it. *)
Theorem update_system_info_rate_sign (self : Manager) (r : Readings) :
  let self' := update_system_info self r in
  (0 <= net_down self' <->
   (bytes_recv (last_net self) <= bytes_recv (counters r))%Z) /\
  (0 <= net_up self' <->
   (bytes_sent (last_net self) <= bytes_sent (counters r))%Z) /\
  (net_down self' < 0 <->
   (bytes_recv (counters r) < bytes_recv (last_net self))%Z) /\
  (net_up self' < 0 <->
   (bytes_sent (counters r) < bytes_sent (last_net self))%Z).
Proof.
  cbv zeta. simpl.
  pose proof (elapsed_or_one_pos (now r) (last_net_time self)) as Hdt.
  repeat split;
    first [ apply (proj1 (rate_nonneg_iff _ _ Hdt))
          | apply (proj2 (rate_nonneg_iff _ _ Hdt))
          | apply (proj1 (rate_neg_iff _ _ Hdt))
          | apply (proj2 (rate_neg_iff _ _ Hdt)) ].
Qed.

Lemma update_system_info_rate_sign_witness :
  let self := init {| bytes_sent := 700; bytes_recv := 4096 |} 10 in
  let r := {| cpu := 5; ram_percent := 40; disk_percent := 30; now := 12;
              counters := {| bytes_sent := 300; bytes_recv := 8192 |} |} in
  ((bytes_recv (last_net self) <= bytes_recv (counters r))%Z /\
   0 <= net_down (update_system_info self r)) /\
  ((bytes_sent (counters r) < bytes_sent (last_net self))%Z /\
   net_up (update_system_info self r) < 0).
Proof.
  intros self r.
  destruct (update_system_info_rate_sign self r) as [Hdown [_ [_ Hup]]].
  split; split.
  - simpl; lia.
  - apply Hdown. simpl; lia.
  - simpl; lia.
  - apply Hup. simpl; lia.
Defined.

Lemma Qdiv_div_cancel (a d u : Q) :
  0 < d -> 0 < u -> a / d / u * (d * u) == a.
Proof.
  intros Hd Hu. field.
  split; intros E; rewrite E in *; eapply Qlt_irrefl; eassumption.
Qed.

(** C7, as stated, fails.  With the floor 1.0 the specification names, half
    a second and 5120 bytes give 10 in the code and 5 in the formula; and no
    positive floor [eps], with any unit of the rate, makes the formula agree
    with the code on every call. *)
Lemma update_system_info_rate_not_floored :
  (net_down (update_system_info at_rest (sample_at (21 # 2) 5120)) == 10 /\
   rate_floor_spec 1 1024 5120 0 (21 # 2) 10 == 5) /\
  ~ exists eps unit : Q,
      0 < eps /\ 0 < unit /\
      forall self r,
        net_down (update_system_info self r) ==
        rate_floor_spec eps unit (bytes_recv (counters r))
          (bytes_recv (last_net self)) (now r) (last_net_time self).
Proof.
  split; [split; reflexivity |].
  intros [eps [unit [He [Hu H]]]].
  pose proof (H at_rest (sample_at 10 1024)) as H0.
  pose proof (H at_rest (sample_at (21 # 2) 1024)) as Hhalf.
  assert (E0 : net_down (update_system_info at_rest (sample_at 10 1024)) == 1)
    by reflexivity.
  assert (Ehalf :
    net_down (update_system_info at_rest (sample_at (21 # 2) 1024)) == 2)
    by reflexivity.
  rewrite E0 in H0. rewrite Ehalf in Hhalf. clear E0 Ehalf H.
  unfold rate_floor_spec in H0, Hhalf. simpl in H0, Hhalf.
  change (inject_Z 1024) with 1024 in H0, Hhalf.
  rewrite (Q.max_r (10 - 10) eps) in H0 by lra.
  pose proof (Qdiv_div_cancel 1024 He Hu) as P0.
  rewrite <- H0 in P0.
  destruct (Qlt_le_dec (1 # 2) eps) as [Hbig | Hsmall].
  - rewrite (Q.max_r ((21 # 2) - 10) eps) in Hhalf by lra.
    rewrite <- H0 in Hhalf. discriminate Hhalf.
  - rewrite (Q.max_l ((21 # 2) - 10) eps) in Hhalf by lra.
    assert (Hpos : 0 < (21 # 2) - 10) by reflexivity.
    pose proof (Qdiv_div_cancel 1024 Hpos Hu) as Phalf.
    rewrite <- Hhalf in Phalf.
    assert (Hunit : unit == 1024) by lra.
    rewrite Hunit in P0. lra.
Qed.

(** C7, amended: on every sampling call each network rate is the counter
    difference divided by [dt] and by 1024 (KiB per second), where [dt] is
    the elapsed time when that is positive, however small, and 1.0 when it
    is zero or negative.  The divisor is always positive, so nothing is
    divided by zero.  For an elapsed time of at least 1.0, or at most zero,
    this is the formula of the specification with floor 1.0.  A [bytes_recv]
    difference of 5120 with one second elapsed gives a down rate of 5. *)
Theorem update_system_info_rates (self : Manager) (r : Readings) :
  let self' := update_system_info self r in
  let elapsed := now r - last_net_time self in
  let recv := (bytes_recv (counters r) - bytes_recv (last_net self))%Z in
  let sent := (bytes_sent (counters r) - bytes_sent (last_net self))%Z in
  (0 < elapsed ->
     net_down self' == inject_Z recv / elapsed / 1024 /\
     net_up self' == inject_Z sent / elapsed / 1024) /\
  (elapsed <= 0 ->
     net_down self' == inject_Z recv / 1024 /\
     net_up self' == inject_Z sent / 1024) /\
  (1 <= elapsed \/ elapsed <= 0 ->
     net_down self' ==
       rate_floor_spec 1 1024 (bytes_recv (counters r))
         (bytes_recv (last_net self)) (now r) (last_net_time self) /\
     net_up self' ==
       rate_floor_spec 1 1024 (bytes_sent (counters r))
         (bytes_sent (last_net self)) (now r) (last_net_time self)) /\
  0 < elapsed_or_one (now r) (last_net_time self) /\
  (recv = 5120%Z -> elapsed == 1 -> net_down self' == 5).
Proof.
  cbv zeta. simpl. unfold rate, rate_floor_spec.
  split; [| split; [| split; [| split]]].
  - intros H. rewrite (elapsed_or_one_elapsed H).
    split; reflexivity.
  - intros H. rewrite (elapsed_or_one_one H).
    split; field.
  - intros [H | H].
    + rewrite elapsed_or_one_elapsed by lra.
      rewrite (Q.max_l _ 1) by lra. split; reflexivity.
    + rewrite (elapsed_or_one_one H).
      rewrite (Q.max_r _ 1) by lra. split; reflexivity.
  - apply elapsed_or_one_pos.
  - intros Hrecv Hone. rewrite Hrecv.
    rewrite elapsed_or_one_elapsed by lra.
    rewrite Hone. reflexivity.
Qed.

Lemma update_system_info_rates_witness :
  let self := init {| bytes_sent := 100; bytes_recv := 1000 |} 10 in
  let r := {| cpu := 5; ram_percent := 40; disk_percent := 30; now := 11;
              counters := {| bytes_sent := 100; bytes_recv := 6120 |} |} in
  (bytes_recv (counters r) - bytes_recv (last_net self) = 5120)%Z /\
  now r - last_net_time self == 1 /\
  net_down (update_system_info self r) == 5.
Proof.
  intros self r.
  assert (Hrecv :
    (bytes_recv (counters r) - bytes_recv (last_net self) = 5120)%Z)
    by reflexivity.
  assert (Hone : now r - last_net_time self == 1) by reflexivity.
  split; [exact Hrecv | split; [exact Hone |]].
  exact (proj2 (proj2 (proj2 (proj2 (update_system_info_rates self r))))
           Hrecv Hone).
Defined.

(** ** The history deques *)

Section LastN.
Context {A : Type}.
Implicit Types l : list A.

Lemma last_n_length n l :
  List.length (Py.last_n n l) = Nat.min n (List.length l).
Proof. unfold Py.last_n. rewrite length_skipn. lia. Qed.

Lemma last_n_all n l : (List.length l <= n)%nat -> Py.last_n n l = l.
Proof.
  intros H. unfold Py.last_n.
  replace (List.length l - n)%nat with 0%nat by lia. reflexivity.
Qed.

Lemma last_n_app_l n l l' :
  Py.last_n n (Py.last_n n l ++ l')%list = Py.last_n n (l ++ l')%list.
Proof.
  unfold Py.last_n.
  set (k := (List.length l - n)%nat).
  assert (Hk : (skipn k l ++ l' = skipn k (l ++ l'))%list).
  { rewrite skipn_app.
    replace (k - List.length l)%nat with 0%nat by lia. reflexivity. }
  rewrite Hk, skipn_skipn. f_equal.
  rewrite length_skipn, !length_app. lia.
Qed.

Lemma last_n_app_r n l l' :
  (n <= List.length l')%nat ->
  Py.last_n n (l ++ l')%list = Py.last_n n l'.
Proof.
  intros H. unfold Py.last_n. rewrite skipn_app, length_app.
  rewrite skipn_all2 by lia. simpl. f_equal. lia.
Qed.

Lemma skipn_1_tl l : skipn 1 l = List.tl l.
Proof. destruct l; reflexivity. Qed.
End LastN.

Lemma deque_append_maxlen d x : maxlen (deque_append d x) = maxlen d.
Proof. reflexivity. Qed.

Lemma deque_append_items d x :
  (List.length (items d) <= maxlen d)%nat ->
  items (deque_append d x) = Py.last_n (maxlen d) (items d ++ [x])%list.
Proof.
  intros H. unfold deque_append; simpl.
  destruct (Nat.ltb_spec (maxlen d) (List.length (items d ++ [x])%list))
    as [Hfull | Hroom].
  - rewrite <- skipn_1_tl. unfold Py.last_n. f_equal.
    rewrite length_app in *. simpl in *. lia.
  - symmetry. apply last_n_all, Hroom.
Qed.

(** A full deque shifts: the oldest item leaves, the new one is last. *)
Lemma deque_append_full d x :
  List.length (items d) = maxlen d -> (0 < maxlen d)%nat ->
  items (deque_append d x) = (List.tl (items d) ++ [x])%list.
Proof.
  intros H Hpos. unfold deque_append; simpl.
  rewrite length_app; simpl.
  destruct (Nat.ltb_spec (maxlen d) (List.length (items d) + 1)); [| lia].
  destruct (items d); simpl in *; [lia | reflexivity].
Qed.

Lemma deque_appends d xs :
  (List.length (items d) <= maxlen d)%nat ->
  items (fold_left deque_append xs d)
    = Py.last_n (maxlen d) (items d ++ xs)%list /\
  maxlen (fold_left deque_append xs d) = maxlen d.
Proof.
  revert d. induction xs as [| x xs IH]; intros d H; simpl.
  - rewrite app_nil_r. split; [symmetry; apply last_n_all, H | reflexivity].
  - destruct (IH (deque_append d x)) as [Hitems Hmax].
    + rewrite deque_append_items by exact H.
      rewrite last_n_length, deque_append_maxlen. lia.
    + rewrite Hitems, Hmax, deque_append_maxlen.
      rewrite deque_append_items by exact H.
      rewrite last_n_app_l, <- app_assoc. split; reflexivity.
Qed.

(** Each history deque of the manager is fed one value per sampling call:
    the reading itself for cpu and ram, the computed rate for the network
    channels. *)
Lemma run_histories (self : Manager) (rs : list Readings) :
  cpu_history (run self rs)
    = fold_left deque_append (map cpu rs) (cpu_history self) /\
  ram_history (run self rs)
    = fold_left deque_append (map ram_percent rs) (ram_history self) /\
  net_down_history (run self rs)
    = fold_left deque_append (map net_down (trace self rs))
        (net_down_history self) /\
  net_up_history (run self rs)
    = fold_left deque_append (map net_up (trace self rs))
        (net_up_history self).
Proof.
  unfold run. revert self.
  induction rs as [| r rs IH]; intros self; simpl.
  - repeat split.
  - destruct (IH (update_system_info self r)) as [Hc [Hr [Hd Hu]]].
    rewrite Hc, Hr, Hd, Hu. repeat split.
Qed.

Lemma trace_length (self : Manager) (rs : list Readings) :
  List.length (trace self rs) = List.length rs.
Proof.
  revert self. induction rs as [| r rs IH]; intros self; simpl;
    [reflexivity | now rewrite IH].
Qed.

(** A deque that starts as sixty zeros holds the last sixty of what was
    pushed, once sixty values were pushed. *)
Lemma history_after_pushes (d : Deque) (xs : list Q) :
  items d = repeat 0 60 -> maxlen d = 60%nat ->
  let d' := fold_left deque_append xs d in
  List.length (items d') = 60%nat /\
  maxlen d' = 60%nat /\
  ((60 <= List.length xs)%nat -> items d' = Py.last_n 60 xs).
Proof.
  intros Hitems Hmax d'.
  destruct (@deque_appends d xs) as [H H'].
  { rewrite Hitems, Hmax, repeat_length. lia. }
  subst d'. rewrite H, H', Hmax. split; [| split].
  - rewrite last_n_length, length_app, Hitems, repeat_length. lia.
  - reflexivity.
  - intros Hlen. apply last_n_app_r, Hlen.
Qed.

Lemma init_histories (first_counters : NetIO) (first_time : Q) :
  let start := init first_counters first_time in
  (items (cpu_history start) = repeat 0 60 /\
   maxlen (cpu_history start) = 60%nat) /\
  (items (ram_history start) = repeat 0 60 /\
   maxlen (ram_history start) = 60%nat) /\
  (items (net_down_history start) = repeat 0 60 /\
   maxlen (net_down_history start) = 60%nat) /\
  (items (net_up_history start) = repeat 0 60 /\
   maxlen (net_up_history start) = 60%nat).
Proof. repeat split. Qed.

(** C8: each of the four history deques (cpu, ram, net down, net up) starts
    as sixty zeros and has exactly sixty items after any number of sampling
    calls; a sampling call drops the oldest item and puts the new value
    last; and after sixty or more calls the deque holds the last sixty
    values pushed, oldest first. *)
Theorem history_buffers
    (first_counters : NetIO) (first_time : Q) (rs : list Readings) :
  let start := init first_counters first_time in
  let self := run start rs in
  (items (cpu_history start) = repeat 0 60 /\
   items (ram_history start) = repeat 0 60 /\
   items (net_down_history start) = repeat 0 60 /\
   items (net_up_history start) = repeat 0 60) /\
  (List.length (items (cpu_history self)) = 60%nat /\
   List.length (items (ram_history self)) = 60%nat /\
   List.length (items (net_down_history self)) = 60%nat /\
   List.length (items (net_up_history self)) = 60%nat) /\
  (forall r : Readings,
     let self' := update_system_info self r in
     items (cpu_history self')
       = (List.tl (items (cpu_history self)) ++ [cpu r])%list /\
     items (ram_history self')
       = (List.tl (items (ram_history self)) ++ [ram_percent r])%list /\
     items (net_down_history self')
       = (List.tl (items (net_down_history self)) ++ [net_down self'])%list /\
     items (net_up_history self')
       = (List.tl (items (net_up_history self)) ++ [net_up self'])%list) /\
  ((60 <= List.length rs)%nat ->
     items (cpu_history self) = Py.last_n 60 (map cpu rs) /\
     items (ram_history self) = Py.last_n 60 (map ram_percent rs) /\
     items (net_down_history self)
       = Py.last_n 60 (map net_down (trace start rs)) /\
     items (net_up_history self)
       = Py.last_n 60 (map net_up (trace start rs))).
Proof.
  intros start self.
  destruct (init_histories first_counters first_time)
    as [[Ic Mc] [[Ir Mr] [[Id Md] [Iu Mu]]]].
  fold start in Ic, Mc, Ir, Mr, Id, Md, Iu, Mu.
  destruct (run_histories start rs) as [Hc [Hr [Hd Hu]]].
  fold self in Hc, Hr, Hd, Hu.
  destruct (history_after_pushes (cpu_history start) (map cpu rs) Ic Mc)
    as [Lc [Xc Tc]].
  destruct (history_after_pushes (ram_history start)
              (map ram_percent rs) Ir Mr) as [Lr [Xr Tr]].
  destruct (history_after_pushes (net_down_history start)
              (map net_down (trace start rs)) Id Md) as [Ld [Xd Td]].
  destruct (history_after_pushes (net_up_history start)
              (map net_up (trace start rs)) Iu Mu) as [Lu [Xu Tu]].
  rewrite <- Hc in Lc, Xc, Tc. rewrite <- Hr in Lr, Xr, Tr.
  rewrite <- Hd in Ld, Xd, Td. rewrite <- Hu in Lu, Xu, Tu.
  split; [repeat split; assumption |].
  split; [repeat split; assumption |].
  split.
  - intros r self'. subst self'. simpl.
    repeat split; apply deque_append_full; lia.
  - intros Hlen.
    repeat split;
      [ apply Tc | apply Tr | apply Td | apply Tu ];
      rewrite length_map, ?trace_length; exact Hlen.
Qed.

Lemma history_buffers_witness :
  (60 <= List.length ramp)%nat /\
  items (cpu_history (run at_rest ramp)) = Py.last_n 60 (map cpu ramp).
Proof.
  assert (Hlen : (60 <= List.length ramp)%nat) by (vm_compute; lia).
  split; [exact Hlen |].
  exact (proj1 (proj2 (proj2 (proj2
           (history_buffers {| bytes_sent := 0; bytes_recv := 0 |} 10 ramp)))
           Hlen)).
Defined.

(** ** Python strings: strip and int *)

Lemma lstrip_cases (s : string) :
  Py.lstrip s = "" \/
  exists c t, Py.lstrip s = String c t /\ Py.isspace c = false.
Proof.
  induction s as [| c s IH]; simpl; [now left |].
  destruct (Py.isspace c) eqn:E; [exact IH |].
  right. exists c, s. now split.
Qed.

Lemma rstrip_idem (s : string) : Py.rstrip (Py.rstrip s) = Py.rstrip s.
Proof.
  induction s as [| c s IH]; simpl; [reflexivity |].
  destruct (Py.isspace c && Py.is_empty (Py.rstrip s)) eqn:E;
    [reflexivity |].
  simpl. rewrite IH, E. reflexivity.
Qed.

Lemma strip_idem (s : string) : Py.strip (Py.strip s) = Py.strip s.
Proof.
  unfold Py.strip.
  destruct (lstrip_cases s) as [H | [c [t [H Hc]]]]; rewrite H.
  - reflexivity.
  - simpl. rewrite Hc. simpl. rewrite Hc. simpl. rewrite Hc. simpl.
    now rewrite rstrip_idem.
Qed.

Lemma digit_of_nonneg (c : ascii) (d : Z) :
  Py.digit_of c = Some d -> (0 <= d)%Z.
Proof.
  unfold Py.digit_of.
  destruct ((48 <=? nat_of_ascii c) && (nat_of_ascii c <=? 57))%nat;
    [| discriminate].
  intros H; injection H as <-. lia.
Qed.

Lemma digits_nonneg (s : string) :
  forall (acc : Z) (b : bool) (n : Z),
    (0 <= acc)%Z -> Py.digits s acc b = Py.Val n -> (0 <= n)%Z.
Proof.
  induction s as [| c s IH]; intros acc b n Hacc; cbn [Py.digits].
  - destruct b; [| discriminate]. intros H; injection H as <-. exact Hacc.
  - destruct (Py.digit_of c) as [d |] eqn:Ed.
    + apply IH. apply digit_of_nonneg in Ed. lia.
    + destruct (Ascii.eqb c "_" && b); [| discriminate].
      apply IH, Hacc.
Qed.

(** [int] of a text that does not lead with a minus sign is not negative. *)
Lemma int_of_str_nonneg (s : string) (n : Z) :
  Py.startswith (Py.strip s) "-" = false ->
  Py.int_of_str s = Py.Val n -> (0 <= n)%Z.
Proof.
  unfold Py.int_of_str. destruct (Py.strip s) as [| c r]; [discriminate |].
  intros Hminus.
  destruct (Ascii.eqb c "+"); [apply digits_nonneg; lia |].
  destruct (Ascii.eqb_spec c "-") as [-> | Hc].
  - simpl in Hminus. destruct r; discriminate.
  - apply digits_nonneg; lia.
Qed.

(** ** The failed-login scanner *)

(** The cases of the scanner in which the code answers as section 4.4 of
    the specification says.  With the auth log present and the count query
    ending with code 0 and output "3" (with or without surrounding white
    space, such as the line end grep prints) the result is ("OK", 3); with
    the auth log absent and the journal query ending with code 1 and empty
    output it is ("OK", 0); with the auth log absent and the journal query
    itself failing to run ([subprocess.run] raises) it is
    ("No auth data available", 0), the source-unavailable status with count
    zero. *)
Theorem get_security_info_cases (h : Host) :
  (forall result,
     path_exists h auth_log = true ->
     subprocess_run h grep_cmd = Py.Val result ->
     returncode result = 0%Z -> Py.strip (stdout result) = "3" ->
     get_security_info h = ("OK", 3%Z) /\
     security_status (fst (get_security_info h)) = Ok) /\
  (forall result,
     path_exists h auth_log = false ->
     subprocess_run h journal_cmd = Py.Val result ->
     returncode result = 1%Z -> Py.strip (stdout result) = "" ->
     get_security_info h = ("OK", 0%Z) /\
     security_status (fst (get_security_info h)) = Ok) /\
  (path_exists h auth_log = false ->
   subprocess_run h journal_cmd = Py.Raise ->
   get_security_info h = ("No auth data available", 0%Z) /\
   security_status (fst (get_security_info h)) = SourceUnavailable).
Proof.
  unfold get_security_info.
  split; [| split].
  - intros result Hex Hrun Hcode Hout.
    rewrite Hex, Hrun. simpl. rewrite Hcode, Hout. split; reflexivity.
  - intros result Hex Hrun Hcode Hout.
    rewrite Hex, Hrun. simpl. rewrite Hcode, Hout. split; reflexivity.
  - intros Hex Hrun. rewrite Hex, Hrun. split; reflexivity.
Qed.

Lemma get_security_info_cases_witness :
  get_security_info (host_with true (completed 0 "3") Py.Raise [])
    = ("OK", 3%Z) /\
  get_security_info (host_with false Py.Raise (completed 1 "") [])
    = ("OK", 0%Z) /\
  get_security_info (host_with false Py.Raise Py.Raise [])
    = ("No auth data available", 0%Z).
Proof.
  split; [| split].
  - exact (proj1 (proj1 (get_security_info_cases
             (host_with true (completed 0 "3") Py.Raise []))
             {| returncode := 0; stdout := "3" |}
             eq_refl eq_refl eq_refl eq_refl)).
  - exact (proj1 (proj1 (proj2 (get_security_info_cases
             (host_with false Py.Raise (completed 1 "") [])))
             {| returncode := 1; stdout := "" |}
             eq_refl eq_refl eq_refl eq_refl)).
  - exact (proj1 (proj2 (proj2 (get_security_info_cases
             (host_with false Py.Raise Py.Raise [])))
             eq_refl eq_refl)).
Defined.

(** C4: the code misses the case in which both sources are unavailable.
    On a host with no auth log and no journalctl the shell still runs the
    pipeline: grep reads nothing, prints 0 and ends with code 1.  The
    return code passes the check, no exception reaches the handler that
    answers "No auth data available", and the answer is ("OK", 0), not the
    source-unavailable one. *)
Lemma get_security_info_both_unavailable :
  let h := host_with false Py.Raise (Py.Val (journal_pipeline None)) [] in
  path_exists h auth_log = false /\
  subprocess_run h journal_cmd
  = Py.Val {| returncode := 1; stdout := String "0" (String "010" "") |} /\
  get_security_info h = ("OK", 0%Z) /\
  get_security_info h <> ("No auth data available", 0%Z) /\
  security_status (fst (get_security_info h)) <> SourceUnavailable.
Proof.
  cbv zeta. repeat split; try reflexivity; vm_compute; discriminate.
Qed.

(** Every branch of [get_security_info] that does not answer "OK" answers
    with count zero. *)
Lemma get_security_info_not_ok (h : Host) :
  fst (get_security_info h) <> "OK" -> snd (get_security_info h) = 0%Z.
Proof.
  unfold get_security_info.
  destruct (path_exists h auth_log).
  - destruct (subprocess_run h grep_cmd) as [result |]; simpl;
      [| reflexivity].
    destruct (Py.in_0_1 (returncode result)); simpl; [| reflexivity].
    destruct (Py.is_empty (Py.strip (stdout result))); simpl;
      [congruence |].
    destruct (Py.int_of_str (Py.strip (stdout result))); simpl;
      [congruence | reflexivity].
  - destruct (subprocess_run h journal_cmd) as [result |]; simpl;
      [| reflexivity].
    destruct (Py.in_0_1 (returncode result)); simpl; [| reflexivity].
    destruct (Py.is_empty (Py.strip (stdout result))); simpl;
      [congruence |].
    destruct (Py.int_of_str (Py.strip (stdout result))); simpl;
      [congruence | reflexivity].
Qed.

Lemma update_panels_from_not_ok (status : string) (count : Z) self :
  status <> "OK" ->
  failed (update_panels_from (status, count) self) = 0%Z.
Proof.
  intros H. unfold update_panels_from; simpl.
  destruct (String.eqb_spec status "OK"); [contradiction | reflexivity].
Qed.

Lemma update_panels_from_health (sec : string * Z) self :
  health (update_panels_from sec self) =
  calculate_health_score (getattr_or_0 (latest_cpu self))
    (getattr_or_0 (latest_ram self)) (getattr_or_0 (latest_disk self))
    (failed (update_panels_from sec self)).
Proof. destruct sec; reflexivity. Qed.

(** C5: when the status of the cycle is not "OK", [get_security_info]
    itself returned count 0, [update_panels] sets the count to 0 whatever
    was returned, the health score is the one for zero failed logins, and
    no login count would have given a higher score. *)
Theorem not_ok_never_lowers_score (h : Host) (self : Manager) :
  fst (get_security_info h) <> "OK" ->
  snd (get_security_info h) = 0%Z /\
  (forall count,
     failed (update_panels_from (fst (get_security_info h), count) self)
       = 0%Z) /\
  failed (update_panels h self) = 0%Z /\
  health (update_panels h self) =
    calculate_health_score (getattr_or_0 (latest_cpu self))
      (getattr_or_0 (latest_ram self)) (getattr_or_0 (latest_disk self)) 0 /\
  (forall count,
     (calculate_health_score (getattr_or_0 (latest_cpu self))
        (getattr_or_0 (latest_ram self)) (getattr_or_0 (latest_disk self))
        count
      <= health (update_panels h self))%Z).
Proof.
  intros Hne.
  assert (Hfailed : failed (update_panels h self) = 0%Z).
  { unfold update_panels.
    rewrite (surjective_pairing (get_security_info h)).
    apply update_panels_from_not_ok, Hne. }
  assert (Hhealth : health (update_panels h self) =
    calculate_health_score (getattr_or_0 (latest_cpu self))
      (getattr_or_0 (latest_ram self)) (getattr_or_0 (latest_disk self)) 0).
  { unfold update_panels at 1. rewrite update_panels_from_health.
    fold (update_panels h self). now rewrite Hfailed. }
  split; [apply get_security_info_not_ok, Hne |].
  split; [intros count; apply update_panels_from_not_ok, Hne |].
  split; [exact Hfailed |].
  split; [exact Hhealth |].
  intros count. rewrite Hhealth.
  rewrite !calculate_health_score_unfold.
  unfold clamp_0_100, login_penalty.
  destruct (0 <? count)%Z eqn:E; simpl; [apply Z.ltb_lt in E |]; lia.
Qed.

Lemma not_ok_never_lowers_score_witness :
  let h := host_with true (completed 2 "7") Py.Raise [] in
  let self := update_system_info at_rest (sample_at 11 2048) in
  fst (get_security_info h) <> "OK" /\
  failed (update_panels h self) = 0%Z /\
  health (update_panels h self) = 78%Z.
Proof.
  intros h self.
  assert (Hne : fst (get_security_info h) <> "OK") by (vm_compute; congruence).
  destruct (not_ok_never_lowers_score h self Hne) as [_ [_ [Hf [Hh _]]]].
  split; [exact Hne | split; [exact Hf |]].
  rewrite Hh. reflexivity.
Defined.

(** C10, as stated, fails: with the auth log present, return code 0 and
    output "-5", the count returned is -5. *)
Lemma get_security_info_negative_count :
  get_security_info (host_with true (completed 0 "-5") Py.Raise [])
    = ("OK", (-5)%Z) /\
  ~ (0 <= snd (get_security_info
                 (host_with true (completed 0 "-5") Py.Raise [])))%Z.
Proof. split; [reflexivity | vm_compute; congruence]. Qed.

(** C10, amended: the count returned by [get_security_info] is not
    negative whenever the status is not "OK" (it is then zero), and
    whenever the output of the query the call consults, white space
    stripped, does not begin with a minus sign; this holds for every return
    code, and whatever the query that is not consulted would print.  An
    output that reads as a negative number is returned as it is. *)
Theorem get_security_info_count_nonneg (h : Host) :
  fst (get_security_info h) <> "OK" \/
  (forall result,
     subprocess_run h (consulted h) = Py.Val result ->
     Py.startswith (Py.strip (stdout result)) "-" = false) ->
  (0 <= snd (get_security_info h))%Z.
Proof.
  intros [Hne | Hout].
  - rewrite (get_security_info_not_ok h Hne). lia.
  - unfold get_security_info. unfold consulted in Hout.
    destruct (path_exists h auth_log).
    + destruct (subprocess_run h grep_cmd) as [result |] eqn:Hrun; simpl;
        [| lia].
      destruct (Py.in_0_1 (returncode result)); simpl; [| lia].
      destruct (Py.is_empty (Py.strip (stdout result))); simpl; [lia |].
      destruct (Py.int_of_str (Py.strip (stdout result))) as [n |] eqn:Hn;
        simpl; [| lia].
      apply (int_of_str_nonneg (Py.strip (stdout result))); [| exact Hn].
      rewrite strip_idem. exact (Hout _ eq_refl).
    + destruct (subprocess_run h journal_cmd) as [result |] eqn:Hrun; simpl;
        [| lia].
      destruct (Py.in_0_1 (returncode result)); simpl; [| lia].
      destruct (Py.is_empty (Py.strip (stdout result))); simpl; [lia |].
      destruct (Py.int_of_str (Py.strip (stdout result))) as [n |] eqn:Hn;
        simpl; [| lia].
      apply (int_of_str_nonneg (Py.strip (stdout result))); [| exact Hn].
      rewrite strip_idem. exact (Hout _ eq_refl).
Qed.

Lemma get_security_info_count_nonneg_witness :
  let h := host_with true
             (completed 0 (String "5" (String "010" "")))
             (completed 0 "-3") [] in
  (forall result,
     subprocess_run h (consulted h) = Py.Val result ->
     Py.startswith (Py.strip (stdout result)) "-" = false) /\
  (0 <= snd (get_security_info h))%Z.
Proof.
  intros h.
  assert (Hout : forall result,
            subprocess_run h (consulted h) = Py.Val result ->
            Py.startswith (Py.strip (stdout result)) "-" = false).
  { intros result Hrun. injection Hrun as <-. reflexivity. }
  split; [exact Hout |].
  exact (get_security_info_count_nonneg h (or_intror Hout)).
Defined.

(** ** The safety check *)

Lemma startswith_spec (s p : string) :
  Py.startswith s p = true <-> exists rest, s = p ++ rest.
Proof.
  revert s. induction p as [| a p IH]; intros s.
  - split; [intros _; now exists s | intros _; now destruct s].
  - destruct s as [| b s]; cbn [Py.startswith].
    + split; [discriminate | intros [rest H]; discriminate].
    + rewrite andb_true_iff, IH. split.
      * intros [Hab [rest H]]. apply Ascii.eqb_eq in Hab.
        exists rest. now rewrite Hab, H.
      * intros [rest H]. injection H as -> H. split.
        -- apply Ascii.eqb_refl.
        -- now exists rest.
Qed.

Lemma contains_spec (sub s : string) :
  Py.contains sub s = true <-> occurs_in sub s.
Proof.
  unfold occurs_in. induction s as [| c s IH]; cbn [Py.contains].
  - rewrite startswith_spec. split.
    + intros [rest H]. exists "", rest. exact H.
    + intros [[| a before] [after H]]; [now exists after | discriminate].
  - rewrite orb_true_iff, IH, startswith_spec. split.
    + intros [[rest H] | [before [after H]]].
      * exists "", rest. exact H.
      * exists (String c before), after. simpl. now rewrite H.
    + intros [[| a before] [after H]].
      * left. now exists after.
      * right. exists before, after. simpl in H. now injection H.
Qed.

Lemma contains_false (sub s : string) :
  Py.contains sub s = false <-> ~ occurs_in sub s.
Proof.
  rewrite <- contains_spec. destruct (Py.contains sub s); split;
    congruence.
Qed.

Lemma first_keyword_in_none (keywords : list string) (line : string) :
  first_keyword_in keywords line = None <->
  forall bad, In bad keywords -> ~ occurs_in bad line.
Proof.
  induction keywords as [| k ks IH]; simpl.
  - split; [intros _ bad [] | reflexivity].
  - destruct (Py.contains k line) eqn:E.
    + split; [discriminate |].
      intros H. apply contains_spec in E.
      exfalso. apply (H k); [now left | exact E].
    + rewrite IH. apply contains_false in E. split.
      * intros H bad [<- | Hin]; [exact E | apply H, Hin].
      * intros H bad Hin. apply H. now right.
Qed.




Lemma warning_not_all_clear (bad : string) : warning bad <> all_clear.
Proof. unfold warning, all_clear. simpl. discriminate. Qed.

(** With the history file found and read, the answer is decided by the
    scan of the last eighty non-blank lines. *)
Lemma get_safety_check_scan (h : Host) (history_file : string)
    (f : list string) :
  get_history_file h = Some history_file ->
  history_file <> "" ->
  read_lines h history_file = Py.Val f ->
  get_safety_check h =
  match scan_recent (Py.last_n 80 (nonblank_lines f)) with
  | Some bad => warning bad
  | None => all_clear
  end.
Proof.
  intros Hfile Hpath Hread. unfold get_safety_check. rewrite Hfile.
  destruct history_file; [contradiction | simpl]. now rewrite Hread.
Qed.

Lemma clean_by_scan (line : string) :
  first_keyword_in dangerous_keywords line = None -> clean line.
Proof. intros H. exact (proj1 (first_keyword_in_none _ _) H). Qed.




(** * More properties of the program *)

(** ** The health score and its colour *)

(** X1: the failed-login count moves the score by at most 20 points, has no
    effect when it is zero or negative, and has the same effect from 10
    failed logins on. *)
Theorem failed_logins_saturate cpu ram disk (fl : Z) :
  ((calculate_health_score cpu ram disk 0 - 20
    <= calculate_health_score cpu ram disk fl)%Z /\
   (calculate_health_score cpu ram disk fl
    <= calculate_health_score cpu ram disk 0)%Z) /\
  ((fl <= 0)%Z ->
   calculate_health_score cpu ram disk fl
   = calculate_health_score cpu ram disk 0) /\
  ((10 <= fl)%Z ->
   calculate_health_score cpu ram disk fl
   = calculate_health_score cpu ram disk 10).
Proof.
  rewrite !calculate_health_score_unfold. unfold clamp_0_100, login_penalty.
  change (0 <? 0)%Z with false. change (0 <? 10)%Z with true.
  destruct (Z.ltb_spec 0 fl); repeat split; intros; lia.
Qed.

Lemma failed_logins_saturate_witness :
  (10 <= 250)%Z /\
  calculate_health_score 30 45 60 250 = calculate_health_score 30 45 60 10.
Proof.
  assert (H : (10 <= 250)%Z) by lia.
  split; [exact H |].
  exact (proj2 (proj2 (failed_logins_saturate 30 45 60 250)) H).
Defined.

Lemma Qlt_bool_true (a b : Q) : Qlt_bool a b = true <-> a < b.
Proof. exact (Qgt_bool_true b a). Qed.

Lemma Qlt_bool_false (a b : Q) : Qlt_bool a b = false <-> b <= a.
Proof. exact (Qgt_bool_false b a). Qed.

Lemma Qlt_bool_inject_Z (a b : Z) :
  Qlt_bool (inject_Z a) (inject_Z b) = (a <? b)%Z.
Proof.
  destruct (Z.ltb_spec a b) as [H | H].
  - apply Qlt_bool_true. now rewrite <- Zlt_Qlt.
  - apply Qlt_bool_false. now rewrite <- Zle_Qle.
Qed.

(** X2: the health label is green when the score is above 50, orange when
    it is above 20 and at most 50, and red when it is at most 20. *)
Theorem health_label_colour (h : Host) (self : Manager) :
  let score := health (update_panels h self) in
  ((50 < score)%Z -> health_label_foreground h self = "#00cc66") /\
  ((20 < score <= 50)%Z -> health_label_foreground h self = "#ff9900") /\
  ((score <= 20)%Z -> health_label_foreground h self = "#ff3333").
Proof.
  intros score. unfold health_label_foreground, color_for_usage.
  fold score.
  change 50 with (inject_Z 50). change 80 with (inject_Z 80).
  rewrite !Qlt_bool_inject_Z.
  destruct (Z.ltb_spec (100 - score) 50), (Z.ltb_spec (100 - score) 80);
    repeat split; intros; (reflexivity || lia).
Qed.

Lemma health_label_colour_witness :
  let h := host_with true (completed 0 "9") Py.Raise [] in
  let self := update_system_info at_rest (sample_at 11 2048) in
  (50 < health (update_panels h self))%Z /\
  health_label_foreground h self = "#00cc66".
Proof.
  intros h self.
  assert (H : (50 < health (update_panels h self))%Z) by (vm_compute; reflexivity).
  split; [exact H |].
  exact (proj1 (health_label_colour h self) H).
Defined.


(** ** The failed-login scanner: which query, which message *)

(** The body both branches share, given the outcome of the query and the
    two messages of the branch. *)
Lemma get_security_info_consulted (h : Host) :
  get_security_info h =
  let '(reading, parsing) :=
    if path_exists h auth_log
    then ("Error reading auth.log", "Error parsing auth.log")
    else ("Error reading journal", "No auth data available") in
  match subprocess_run h (consulted h) with
  | Py.Raise => (parsing, 0%Z)
  | Py.Val result =>
      if Py.in_0_1 (returncode result) then
        if Py.is_empty (Py.strip (stdout result)) then ("OK", 0%Z)
        else
          match Py.int_of_str (Py.strip (stdout result)) with
          | Py.Val count => ("OK", count)
          | Py.Raise => (parsing, 0%Z)
          end
      else (reading, 0%Z)
  end.
Proof.
  unfold get_security_info, consulted.
  destruct (path_exists h auth_log);
    (destruct (subprocess_run h _) as [result |]; simpl; [| reflexivity]);
    (destruct (Py.in_0_1 (returncode result)); simpl; [| reflexivity]);
    (destruct (Py.is_empty (Py.strip (stdout result))); simpl;
       [reflexivity |]);
    destruct (Py.int_of_str (Py.strip (stdout result))); reflexivity.
Qed.

(** X4: a call consults one query only, grep on the auth log when the log
    exists and the journal otherwise; two hosts that agree on the existence
    of the log and on the outcome of that one query get the same answer,
    whatever the other query would have returned. *)
Theorem get_security_info_one_source (h1 h2 : Host) :
  path_exists h1 auth_log = path_exists h2 auth_log ->
  subprocess_run h1 (consulted h1) = subprocess_run h2 (consulted h1) ->
  get_security_info h1 = get_security_info h2.
Proof.
  intros Hex Hrun. rewrite !get_security_info_consulted.
  unfold consulted in *. rewrite <- Hex, <- Hrun. reflexivity.
Qed.

Lemma get_security_info_one_source_witness :
  let h1 := host_with true (completed 0 "4") Py.Raise [] in
  let h2 := host_with true (completed 0 "4") (completed 0 "77") ["ls"] in
  path_exists h1 auth_log = path_exists h2 auth_log /\
  subprocess_run h1 (consulted h1) = subprocess_run h2 (consulted h1) /\
  get_security_info h1 = get_security_info h2.
Proof.
  intros h1 h2.
  assert (Hex : path_exists h1 auth_log = path_exists h2 auth_log)
    by reflexivity.
  assert (Hrun : subprocess_run h1 (consulted h1)
                 = subprocess_run h2 (consulted h1)) by reflexivity.
  split; [exact Hex | split; [exact Hrun |]].
  exact (get_security_info_one_source h1 h2 Hex Hrun).
Defined.

(** X5: a query that ends with a return code other than 0 and 1 gives the
    "Error reading" message of its source with count 0, whatever it printed;
    a query that cannot be run, or prints something that is not a number,
    gives "Error parsing auth.log" for the log and "No auth data available"
    for the journal. *)
Theorem get_security_info_errors (h : Host) :
  (forall result,
     subprocess_run h (consulted h) = Py.Val result ->
     returncode result <> 0%Z -> returncode result <> 1%Z ->
     get_security_info h =
     (if path_exists h auth_log then "Error reading auth.log"
      else "Error reading journal", 0%Z)) /\
  (subprocess_run h (consulted h) = Py.Raise ->
   get_security_info h =
   (if path_exists h auth_log then "Error parsing auth.log"
    else "No auth data available", 0%Z)) /\
  (forall result,
     subprocess_run h (consulted h) = Py.Val result ->
     Py.in_0_1 (returncode result) = true ->
     Py.strip (stdout result) <> "" ->
     Py.int_of_str (Py.strip (stdout result)) = Py.Raise ->
     get_security_info h =
     (if path_exists h auth_log then "Error parsing auth.log"
      else "No auth data available", 0%Z)).
Proof.
  rewrite get_security_info_consulted.
  split; [| split].
  - intros result Hrun H0 H1. rewrite Hrun.
    assert (E : Py.in_0_1 (returncode result) = false).
    { unfold Py.in_0_1. apply orb_false_iff.
      split; apply Z.eqb_neq; assumption. }
    rewrite E. destruct (path_exists h auth_log); reflexivity.
  - intros Hrun. rewrite Hrun.
    destruct (path_exists h auth_log); reflexivity.
  - intros result Hrun Hcode Hne Hparse. rewrite Hrun, Hcode, Hparse.
    destruct (Py.strip (stdout result)); [contradiction |].
    destruct (path_exists h auth_log); reflexivity.
Qed.

Lemma get_security_info_errors_witness :
  let h := host_with false Py.Raise (completed 127 "12") [] in
  subprocess_run h (consulted h)
    = Py.Val {| returncode := 127; stdout := "12" |} /\
  get_security_info h = ("Error reading journal", 0%Z).
Proof.
  intros h.
  assert (Hrun : subprocess_run h (consulted h)
                 = Py.Val {| returncode := 127; stdout := "12" |})
    by reflexivity.
  split; [exact Hrun |].
  refine (proj1 (get_security_info_errors h) _ Hrun _ _);
    simpl; discriminate.
Defined.

(** X6: the answer is ("OK", n) exactly when the consulted query ran, ended
    with return code 0 or 1, and printed either nothing but white space
    (then n is 0) or a text that [int] reads as n. *)
Theorem get_security_info_ok_iff (h : Host) (n : Z) :
  get_security_info h = ("OK", n) <->
  exists result,
    subprocess_run h (consulted h) = Py.Val result /\
    (returncode result = 0%Z \/ returncode result = 1%Z) /\
    ((Py.strip (stdout result) = "" /\ n = 0%Z) \/
     (Py.strip (stdout result) <> "" /\
      Py.int_of_str (Py.strip (stdout result)) = Py.Val n)).
Proof.
  rewrite get_security_info_consulted.
  assert (Hcode : forall c, Py.in_0_1 c = true <-> (c = 0 \/ c = 1)%Z).
  { intros c. unfold Py.in_0_1.
    rewrite orb_true_iff, !Z.eqb_eq. reflexivity. }
  destruct (path_exists h auth_log); cbv beta iota; (split;
  [ destruct (subprocess_run h (consulted h)) as [result |];
      [| discriminate];
    destruct (Py.in_0_1 (returncode result)) eqn:Ec; [| discriminate];
    apply Hcode in Ec;
    destruct (Py.strip (stdout result)) as [| c t] eqn:Et; simpl;
    [ intros H; injection H as <-; exists result;
      rewrite Et; repeat split; auto
    | destruct (Py.int_of_str (String c t)) as [count |] eqn:Ei;
        [| discriminate];
      intros H; injection H as <-; exists result;
      rewrite Et; repeat split; auto;
      right; split; [discriminate | exact Ei] ]
  | intros [result [Hrun [Hc Hout]]]; rewrite Hrun;
    apply Hcode in Hc; rewrite Hc;
    destruct Hout as [[Ht ->] | [Hne Hi]];
    [ rewrite Ht; reflexivity
    | rewrite Hi; destruct (Py.strip (stdout result));
        [contradiction | reflexivity] ] ]).
Qed.

Lemma get_security_info_ok_iff_witness :
  let h := host_with false Py.Raise (completed 1 "") [] in
  get_security_info h = ("OK", 0%Z).
Proof.
  intros h. apply (proj2 (get_security_info_ok_iff h 0)).
  exists {| returncode := 1; stdout := "" |}.
  split; [reflexivity | split; [right; reflexivity |]].
  left. split; reflexivity.
Defined.

(** ** The safety check: what a warning means, and how far back it looks *)

Lemma warning_inj (a b : string) : warning a = warning b -> a = b.
Proof. unfold warning. simpl. intros H. now injection H. Qed.

Lemma first_keyword_in_some (keywords : list string) (line bad : string) :
  first_keyword_in keywords line = Some bad ->
  exists earlier later,
    keywords = (earlier ++ bad :: later)%list /\
    occurs_in bad line /\
    forall k, In k earlier -> ~ occurs_in k line.
Proof.
  induction keywords as [| k ks IH]; simpl; [discriminate |].
  destruct (Py.contains k line) eqn:E.
  - intros H. injection H as <-. exists [], ks.
    split; [reflexivity | split; [apply contains_spec, E | intros k' []]].
  - intros H. destruct (IH H) as [earlier [later [-> [Hbad Hearlier]]]].
    exists (k :: earlier), later.
    split; [reflexivity | split; [exact Hbad |]].
    intros k' [<- | Hin]; [apply contains_false, E | apply Hearlier, Hin].
Qed.

Lemma scan_recent_some (recent : list string) (bad : string) :
  scan_recent recent = Some bad ->
  exists before line after,
    recent = (before ++ line :: after)%list /\
    (forall l, In l before -> clean l) /\
    first_keyword_in dangerous_keywords line = Some bad.
Proof.
  induction recent as [| l ls IH]; cbn [scan_recent]; [discriminate |].
  destruct (first_keyword_in dangerous_keywords l) as [found |] eqn:E.
  - intros H. injection H as <-. exists [], l, ls.
    split; [reflexivity | split; [intros l' [] | exact E]].
  - intros H. destruct (IH H) as [before [line [after [-> [Hbefore Hline]]]]].
    exists (l :: before), line, after.
    split; [reflexivity | split; [| exact Hline]].
    intros l' [<- | Hin]; [apply clean_by_scan, E | apply Hbefore, Hin].
Qed.

(** X7: a warning is never a false alarm.  When the check answers with a
    warning for a keyword, that keyword is one of the five, it occurs in a
    line of the window, no line before that one holds any keyword, and no
    keyword earlier in the list occurs in that line. *)
Theorem get_safety_check_warning_sound
    (h : Host) (history_file : string) (f : list string) (bad : string) :
  get_history_file h = Some history_file ->
  history_file <> "" ->
  read_lines h history_file = Py.Val f ->
  get_safety_check h = warning bad ->
  In bad dangerous_keywords /\
  exists before line after earlier later,
    Py.last_n 80 (nonblank_lines f) = (before ++ line :: after)%list /\
    (forall l, In l before -> clean l) /\
    dangerous_keywords = (earlier ++ bad :: later)%list /\
    (forall k, In k earlier -> ~ occurs_in k line) /\
    occurs_in bad line.
Proof.
  intros Hfile Hpath Hread Hwarn.
  rewrite (get_safety_check_scan h Hfile Hpath Hread) in Hwarn.
  destruct (scan_recent (Py.last_n 80 (nonblank_lines f))) as [found |] eqn:E.
  - apply warning_inj in Hwarn. subst found.
    destruct (scan_recent_some _ E) as [before [line [after [Hwin [Hb Hl]]]]].
    destruct (first_keyword_in_some _ _ Hl) as [earlier [later [Hk [Ho He]]]].
    split.
    + rewrite Hk. apply in_or_app. right. now left.
    + exists before, line, after, earlier, later. auto.
  - exfalso. symmetry in Hwarn. exact (warning_not_all_clear Hwarn).
Qed.

Lemma get_safety_check_warning_sound_witness :
  let h := host_with false Py.Raise Py.Raise eighty_commands in
  get_safety_check h = warning "mkfs" /\ In "mkfs" dangerous_keywords.
Proof.
  intros h.
  assert (Hwarn : get_safety_check h = warning "mkfs") by reflexivity.
  assert (Hpath : "~/.bash_history" <> "") by discriminate.
  split; [exact Hwarn |].
  exact (proj1 (@get_safety_check_warning_sound h "~/.bash_history"
                  eighty_commands "mkfs" eq_refl Hpath eq_refl Hwarn)).
Defined.

Lemma nonblank_lines_app (f g : list string) :
  nonblank_lines (f ++ g) = (nonblank_lines f ++ nonblank_lines g)%list.
Proof. unfold nonblank_lines. now rewrite filter_app, map_app. Qed.

(** X8: the check looks at the last eighty non-blank lines only.  Whatever
    is put in front of a history that already has eighty non-blank lines,
    a dangerous command included, leaves the answer unchanged. *)
Theorem get_safety_check_forgets (h1 h2 : Host) (history_file : string)
    (older f : list string) :
  get_history_file h1 = Some history_file ->
  get_history_file h2 = Some history_file ->
  read_lines h1 history_file = Py.Val (older ++ f)%list ->
  read_lines h2 history_file = Py.Val f ->
  (80 <= List.length (nonblank_lines f))%nat ->
  get_safety_check h1 = get_safety_check h2.
Proof.
  intros Hf1 Hf2 Hr1 Hr2 Hlen. unfold get_safety_check.
  rewrite Hf1, Hf2. destruct (Py.is_empty history_file); [reflexivity |].
  rewrite Hr1, Hr2. cbv zeta.
  now rewrite nonblank_lines_app, last_n_app_r.
Qed.

Lemma get_safety_check_forgets_witness :
  let older := ["rm -rf / --no-preserve-root"; "dd if=/dev/zero of=/dev/sda"] in
  let recent := repeat "ls -la" 80 in
  let h1 := host_with false Py.Raise Py.Raise (older ++ recent) in
  let h2 := host_with false Py.Raise Py.Raise recent in
  (80 <= List.length (nonblank_lines recent))%nat /\
  get_safety_check h1 = get_safety_check h2 /\
  get_safety_check h1 = all_clear.
Proof.
  intros older recent h1 h2.
  assert (Hlen : (80 <= List.length (nonblank_lines recent))%nat)
    by (vm_compute; lia).
  split; [exact Hlen |].
  assert (E : get_safety_check h1 = get_safety_check h2).
  { exact (@get_safety_check_forgets h1 h2 "~/.bash_history" older recent
             eq_refl eq_refl eq_refl eq_refl Hlen). }
  split; [exact E |]. rewrite E. reflexivity.
Defined.

Lemma nonblank_lines_in (f : list string) (line : string) :
  In line (nonblank_lines f) <->
  (exists raw, In raw f /\ Py.strip raw = line) /\
  line <> "" /\ Py.strip line = line.
Proof.
  unfold nonblank_lines. rewrite in_map_iff. split.
  - intros [raw [<- Hin]]. apply filter_In in Hin as [Hin Hne].
    split; [now exists raw |]. split.
    + intros E. rewrite E in Hne. discriminate.
    + apply strip_idem.
  - intros [[raw [Hin <-]] [Hne _]]. exists raw. split; [reflexivity |].
    apply filter_In. split; [exact Hin |].
    destruct (Py.strip raw); [contradiction | reflexivity].
Qed.

(** X9: the lines the check and the study tracker work on are exactly the
    stripped forms of the lines of the file that are not blank; none of
    them is empty, and stripping one again changes nothing. *)
Theorem nonblank_lines_spec (f : list string) (line : string) :
  In line (nonblank_lines f) <->
  (exists raw, In raw f /\ Py.strip raw = line) /\
  line <> "" /\ Py.strip line = line.
Proof. apply nonblank_lines_in. Qed.

Lemma nonblank_lines_spec_witness :
  In "cd /tmp" (nonblank_lines ["  "; String "009" "cd /tmp  "; ""]).
Proof.
  apply (proj2 (nonblank_lines_spec
                  ["  "; String "009" "cd /tmp  "; ""] "cd /tmp")).
  split; [| split; [discriminate | reflexivity]].
  exists (String "009" "cd /tmp  "). split; [| reflexivity].
  right. left. reflexivity.
Defined.

(** ** The study tracker *)

Lemma split_nil_iff (s : string) : Py.split s = [] <-> Py.lstrip s = "".
Proof.
  induction s as [| c s IH]; cbn [Py.split Py.lstrip]; [tauto |].
  destruct (Py.isspace c); [exact IH |].
  split; [| discriminate].
  destruct s as [| c' s']; [discriminate |].
  destruct (Py.isspace c'); [discriminate |].
  destruct (Py.split (String c' s')); discriminate.
Qed.

(** A line that is not blank has a first word. *)
Lemma split_nonblank (f : list string) (line : string) :
  In line (nonblank_lines f) -> Py.split line <> [].
Proof.
  intros Hin. apply nonblank_lines_in in Hin as [_ [Hne Hstrip]].
  intros Hsplit. apply split_nil_iff in Hsplit.
  unfold Py.strip in Hstrip. rewrite Hsplit in Hstrip.
  simpl in Hstrip. congruence.
Qed.

Lemma freq_get_set (freq : Freq) (cmd c : string) (v : Z) :
  freq_get (freq_set freq cmd v) c
  = if String.eqb cmd c then v else freq_get freq c.
Proof.
  induction freq as [| [k n] rest IH]; simpl.
  - reflexivity.
  - destruct (String.eqb_spec k cmd) as [E | Hk]; simpl.
    + subst k. destruct (String.eqb_spec cmd c); reflexivity.
    + rewrite IH. destruct (String.eqb_spec k c) as [E | Hkc];
        [| reflexivity].
      subst k. destruct (String.eqb_spec cmd c); [congruence | reflexivity].
Qed.

Lemma freq_set_keys (freq : Freq) (cmd : string) (v : Z) :
  map fst (freq_set freq cmd v)
  = if in_dec string_dec cmd (map fst freq) then map fst freq
    else (map fst freq ++ [cmd])%list.
Proof.
  induction freq as [| [k n] rest IH]; simpl; [reflexivity |].
  destruct (String.eqb_spec k cmd) as [E | Hk]; simpl.
  - subst k. destruct (string_dec cmd cmd); [reflexivity | contradiction].
  - rewrite IH. destruct (string_dec k cmd); [contradiction |].
    destruct (in_dec string_dec cmd (map fst rest)); reflexivity.
Qed.

Lemma total_count_incr (freq : Freq) (cmd : string) :
  total_count (freq_set freq cmd (freq_get freq cmd + 1))
  = (total_count freq + 1)%Z.
Proof.
  unfold total_count.
  induction freq as [| [k n] rest IH]; simpl; [reflexivity |].
  destruct (String.eqb_spec k cmd); simpl; [| rewrite IH]; lia.
Qed.

Lemma count_commands_from (lines : list string) (start : Freq) :
  (forall line, In line lines -> Py.split line <> []) ->
  total_count (fold_left count_line lines start)
  = (total_count start + Z.of_nat (List.length lines))%Z.
Proof.
  revert start. induction lines as [| l ls IH]; intros start Hsplit.
  - simpl. lia.
  - cbn [fold_left List.length]. rewrite IH.
    + unfold count_line.
      destruct (Py.split l) as [| cmd rest] eqn:E.
      * exfalso. apply (Hsplit l); [now left | exact E].
      * rewrite total_count_incr. lia.
    + intros line Hin. apply Hsplit. now right.
Qed.

Lemma count_line_get (freq : Freq) (line c : string) :
  freq_get (count_line freq line) c
  = (freq_get freq c
     + Z.of_nat (count_occ string_dec (firstn 1 (Py.split line)) c))%Z.
Proof.
  unfold count_line. destruct (Py.split line) as [| cmd rest]; simpl.
  - lia.
  - rewrite freq_get_set.
    destruct (String.eqb_spec cmd c) as [E | Hne];
      match goal with
      | |- context [string_dec ?a ?b] => destruct (string_dec a b)
      end; try congruence; subst; lia.
Qed.

Lemma count_commands_get_from (lines : list string) (start : Freq)
    (c : string) :
  freq_get (fold_left count_line lines start) c
  = (freq_get start c
     + Z.of_nat (count_occ string_dec (first_words lines) c))%Z.
Proof.
  revert start. induction lines as [| l ls IH]; intros start.
  - simpl. lia.
  - cbn [fold_left]. rewrite IH, count_line_get.
    unfold first_words. cbn [flat_map]. rewrite count_occ_app.
    fold (first_words ls). lia.
Qed.

Lemma count_line_keys (freq : Freq) (line : string) :
  NoDup (map fst freq) -> NoDup (map fst (count_line freq line)).
Proof.
  intros H. unfold count_line. destruct (Py.split line) as [| cmd rest];
    [exact H |].
  rewrite freq_set_keys.
  destruct (in_dec string_dec cmd (map fst freq)) as [Hin | Hout];
    [exact H |].
  apply NoDup_app; [exact H | repeat constructor; intros [] |].
  intros k Hk [<- | []]. contradiction.
Qed.

Lemma count_commands_keys (lines : list string) :
  NoDup (map fst (count_commands lines)).
Proof.
  unfold count_commands.
  assert (H : forall start, NoDup (map fst start) ->
                NoDup (map fst (fold_left count_line lines start))).
  { induction lines as [| l ls IH]; intros start Hs; simpl;
      [exact Hs | apply IH, count_line_keys, Hs]. }
  apply H. constructor.
Qed.

Lemma freq_get_in (freq : Freq) (c : string) (n : Z) :
  NoDup (map fst freq) -> In (c, n) freq -> freq_get freq c = n.
Proof.
  induction freq as [| [k m] rest IH]; simpl; [intros _ [] |].
  intros Hnd [Heq | Hin].
  - injection Heq as -> ->. now rewrite String.eqb_refl.
  - inversion Hnd as [| ? ? Hk Hrest]; subst.
    destruct (String.eqb_spec k c) as [-> | Hne].
    + exfalso. apply Hk. apply in_map_iff. now exists (c, n).
    + apply IH; assumption.
Qed.

Lemma count_commands_words (lines : list string) (c : string) :
  In c (map fst (count_commands lines)) -> In c (first_words lines).
Proof.
  unfold count_commands.
  assert (H : forall start,
            In c (map fst (fold_left count_line lines start)) ->
            In c (map fst start) \/ In c (first_words lines)).
  { induction lines as [| l ls IH]; intros start Hin; [now left |].
    cbn [fold_left] in Hin. apply IH in Hin as [Hin | Hin].
    - unfold first_words; cbn [flat_map]. unfold count_line in Hin.
      destruct (Py.split l) as [| cmd rest]; [now left |].
      rewrite freq_set_keys in Hin.
      destruct (in_dec string_dec cmd (map fst start)); [now left |].
      apply in_app_or in Hin as [Hin | [<- | []]]; [now left |].
      right. now left.
    - right. unfold first_words; cbn [flat_map].
      apply in_or_app. now right. }
  intros Hin. destruct (H [] Hin) as [[] | Hw]. exact Hw.
Qed.

(** X10: the study tracker and the safety check read the same file and
    agree on it: one reports the history as not found, or as unreadable,
    exactly when the other does, and the tracker then reports zero commands
    and no top commands. *)
Theorem study_and_safety_agree (h : Host) :
  let '(status, total_cmds, top_cmd_names) := get_study_stats h in
  (status = "History file not found" <->
   get_safety_check h = "History file not found") /\
  (status = "Error reading history" <->
   get_safety_check h = "Error reading history") /\
  (status = "OK" <->
   get_safety_check h = all_clear \/
   exists bad, get_safety_check h = warning bad) /\
  (status <> "OK" -> total_cmds = 0%Z /\ top_cmd_names = []).
Proof.
  unfold get_study_stats, get_safety_check, Py.truthy.
  destruct (get_history_file h) as [history_file |].
  - rewrite negb_involutive. destruct (Py.is_empty history_file).
    + repeat split; try discriminate; try reflexivity.
      intros [H | [bad H]]; discriminate.
    + destruct (read_lines h history_file) as [f |].
      * cbv zeta.
        destruct (scan_recent (Py.last_n 80 (nonblank_lines f))) as [bad |];
          repeat split; try discriminate; try reflexivity; try congruence.
        -- intros _. right. now exists bad.
        -- intros _. now left.
      * repeat split; try discriminate; try reflexivity.
        intros [H | [bad H]]; discriminate.
  - repeat split; try discriminate; try reflexivity.
    intros [H | [bad H]]; discriminate.
Qed.

Lemma study_and_safety_agree_witness :
  get_safety_check (host_with false Py.Raise Py.Raise ["cd /tmp"; "ls"])
  = all_clear \/
  exists bad,
    get_safety_check (host_with false Py.Raise Py.Raise ["cd /tmp"; "ls"])
    = warning bad.
Proof.
  pose proof (study_and_safety_agree
                (host_with false Py.Raise Py.Raise ["cd /tmp"; "ls"])) as H.
  cbv beta iota zeta delta [get_study_stats] in H.
  simpl get_history_file in H. simpl in H.
  destruct H as [_ [_ [H _]]]. apply H. reflexivity.
Defined.

(** X11: when the history is read, the tracker reports the number of
    non-blank lines as the number of commands.  Every non-blank line is
    counted under its first word: the counts add up to that number, each
    command is recorded once, and its count is the number of lines that
    begin with it, which is at least one. *)
Theorem get_study_stats_counts
    (h : Host) (history_file : string) (f : list string) :
  get_history_file h = Some history_file ->
  history_file <> "" ->
  read_lines h history_file = Py.Val f ->
  let lines := nonblank_lines f in
  let freq := count_commands lines in
  get_study_stats h
  = ("OK", Z.of_nat (List.length lines), map cmd_name (top_cmds lines)) /\
  total_count freq = Z.of_nat (List.length lines) /\
  List.length (first_words lines) = List.length lines /\
  NoDup (map fst freq) /\
  (forall cmd n, In (cmd, n) freq ->
     n = Z.of_nat (count_occ string_dec (first_words lines) cmd) /\
     (1 <= n)%Z).
Proof.
  intros Hfile Hpath Hread lines freq.
  assert (Hsplit : forall line, In line lines -> Py.split line <> []).
  { intros line. apply split_nonblank. }
  split; [| split; [| split; [| split]]].
  - unfold get_study_stats. rewrite Hfile.
    destruct history_file; [contradiction |]. simpl. now rewrite Hread.
  - unfold freq, count_commands. now rewrite count_commands_from.
  - clear -Hsplit. induction lines as [| l ls IH]; [reflexivity |].
    unfold first_words; cbn [flat_map]. rewrite length_app.
    fold (first_words ls). rewrite IH by (intros; apply Hsplit; now right).
    destruct (Py.split l) eqn:E; [| reflexivity].
    exfalso. apply (Hsplit l); [now left | exact E].
  - apply count_commands_keys.
  - intros cmd n Hin.
    assert (Hn : n = Z.of_nat (count_occ string_dec (first_words lines) cmd)).
    { rewrite <- (freq_get_in freq cmd n (count_commands_keys lines) Hin).
      unfold freq, count_commands. rewrite count_commands_get_from.
      simpl. lia. }
    split; [exact Hn |].
    assert (Hw : In cmd (first_words lines)).
    { apply count_commands_words. apply in_map_iff. now exists (cmd, n). }
    apply (count_occ_In string_dec) in Hw. lia.
Qed.

Lemma get_study_stats_counts_witness :
  let f := ["git status"; ""; "  ls -la"; "git log"; "cd /tmp"; "git diff";
            "ls"] in
  get_study_stats (host_with false Py.Raise Py.Raise f)
  = ("OK", 6%Z, ["git (3)"; "ls (2)"; "cd (1)"]).
Proof.
  intros f.
  assert (Hpath : "~/.bash_history" <> "") by discriminate.
  exact (proj1 (@get_study_stats_counts
                  (host_with false Py.Raise Py.Raise f)
                  "~/.bash_history" f eq_refl Hpath eq_refl)).
Defined.

Lemma insert_by_count_perm (item : string * Z) (l : list (string * Z)) :
  Permutation (insert_by_count item l) (item :: l).
Proof.
  induction l as [| other rest IH]; simpl; [reflexivity |].
  destruct (snd item <? snd other)%Z; [| reflexivity].
  rewrite IH. apply perm_swap.
Qed.

Lemma sorted_by_count_perm (l : list (string * Z)) :
  Permutation (sorted_by_count l) l.
Proof.
  induction l as [| item rest IH]; simpl; [reflexivity |].
  rewrite insert_by_count_perm. now constructor.
Qed.

Lemma insert_by_count_sorted (item : string * Z) (l : list (string * Z)) :
  StronglySorted count_desc l ->
  StronglySorted count_desc (insert_by_count item l).
Proof.
  induction 1 as [| other rest Hrest IH Hall]; simpl.
  - repeat constructor.
  - destruct (Z.ltb_spec (snd item) (snd other)) as [Hlt | Hge].
    + constructor; [exact IH |].
      apply Forall_forall. intros x Hin.
      apply (Permutation_in _ (insert_by_count_perm item rest)) in Hin.
      destruct Hin as [<- | Hin].
      * unfold count_desc. lia.
      * rewrite Forall_forall in Hall. apply Hall, Hin.
    + constructor; [now constructor |].
      constructor; [exact Hge |].
      apply Forall_forall. intros x Hin.
      rewrite Forall_forall in Hall. specialize (Hall x Hin).
      unfold count_desc in *. lia.
Qed.

Lemma sorted_by_count_sorted (l : list (string * Z)) :
  StronglySorted count_desc (sorted_by_count l).
Proof.
  induction l as [| item rest IH]; simpl;
    [constructor | apply insert_by_count_sorted, IH].
Qed.

Lemma insert_by_count_with_count (k : Z) (item : string * Z)
    (l : list (string * Z)) :
  with_count k (insert_by_count item l) = with_count k (item :: l).
Proof.
  unfold with_count.
  induction l as [| other rest IH]; simpl; [reflexivity |].
  destruct (Z.ltb_spec (snd item) (snd other)) as [Hlt | Hge];
    [| reflexivity].
  simpl. rewrite IH. simpl.
  destruct (Z.eqb_spec (snd item) k), (Z.eqb_spec (snd other) k);
    (reflexivity || lia).
Qed.

Lemma sorted_by_count_with_count (k : Z) (l : list (string * Z)) :
  with_count k (sorted_by_count l) = with_count k l.
Proof.
  induction l as [| item rest IH]; simpl; [reflexivity |].
  rewrite insert_by_count_with_count. unfold with_count in *. simpl.
  now rewrite IH.
Qed.

Lemma StronglySorted_app_inv_l {A} (R : A -> A -> Prop) (l1 l2 : list A) :
  StronglySorted R (l1 ++ l2) ->
  StronglySorted R l1 /\
  forall a b, In a l1 -> In b l2 -> R a b.
Proof.
  induction l1 as [| x l1 IH]; simpl; intros H.
  - split; [constructor | intros a b []].
  - inversion H as [| ? ? Hs Hall]; subst.
    destruct (IH Hs) as [Hs1 Hcross]. split.
    + constructor; [exact Hs1 |].
      rewrite Forall_forall in *. intros y Hy. apply Hall.
      apply in_or_app. now left.
    + intros a b [<- | Ha] Hb.
      * rewrite Forall_forall in Hall. apply Hall.
        apply in_or_app. now right.
      * apply Hcross; assumption.
Qed.

(** X12: the top commands are at most three entries of the count table,
    three when the table has that many, listed with counts that do not go
    up, and no command left out of the list has a higher count than one in
    it. *)
Theorem top_cmds_spec (lines : list string) :
  let freq := count_commands lines in
  let top := top_cmds lines in
  List.length top = Nat.min 3 (List.length freq) /\
  StronglySorted count_desc top /\
  (forall item, In item top -> In item freq) /\
  (forall item t,
     In item freq -> ~ In item top -> In t top -> (snd item <= snd t)%Z).
Proof.
  intros freq top.
  pose proof (sorted_by_count_perm freq) as Hperm.
  pose proof (sorted_by_count_sorted freq) as Hsorted.
  rewrite <- (firstn_skipn 3 (sorted_by_count freq)) in Hsorted.
  destruct (@StronglySorted_app_inv_l _ _ _ _ Hsorted) as [Htop Hcross].
  change (firstn 3 (sorted_by_count freq)) with top in Htop, Hcross.
  split; [| split; [exact Htop | split]].
  - unfold top, top_cmds. fold freq.
    rewrite length_firstn, (Permutation_length Hperm). reflexivity.
  - intros item Hin. apply (Permutation_in _ Hperm).
    unfold top, top_cmds in Hin. fold freq in Hin.
    rewrite <- (firstn_skipn 3 (sorted_by_count freq)).
    apply in_or_app. now left.
  - intros item t Hfreq Hout Ht.
    apply (Permutation_in _ (Permutation_sym Hperm)) in Hfreq.
    rewrite <- (firstn_skipn 3 (sorted_by_count freq)) in Hfreq.
    apply in_app_or in Hfreq as [Hin | Hin]; [contradiction |].
    exact (Hcross t item Ht Hin).
Qed.

Lemma top_cmds_spec_witness :
  let lines := ["git status"; "ls -la"; "git log"; "cd /tmp"; "vim a";
                "ls"; "git diff"] in
  In ("vim", 1%Z) (count_commands lines) /\
  ~ In ("vim", 1%Z) (top_cmds lines) /\
  In ("ls", 2%Z) (top_cmds lines) /\
  (snd ("vim", 1%Z) <= snd ("ls", 2%Z))%Z.
Proof.
  intros lines.
  assert (Hfreq : In ("vim", 1%Z) (count_commands lines))
    by (vm_compute; tauto).
  assert (Hout : ~ In ("vim", 1%Z) (top_cmds lines)).
  { vm_compute. intros [H | [H | [H | []]]]; discriminate H. }
  assert (Htop : In ("ls", 2%Z) (top_cmds lines)) by (vm_compute; tauto).
  split; [exact Hfreq | split; [exact Hout | split; [exact Htop |]]].
  exact (proj2 (proj2 (proj2 (top_cmds_spec lines)))
           ("vim", 1%Z) ("ls", 2%Z) Hfreq Hout Htop).
Defined.

(** X13: ties are broken by first use.  Sorting keeps the commands that
    have the same count in the order of the count table, and the table
    keeps its commands in the order in which they first appeared: one more
    line leaves the commands already there in place and puts a command not
    seen before at the end. *)
Theorem top_cmds_ties (lines : list string) (line : string) (k : Z) :
  with_count k (sorted_by_count (count_commands lines))
  = with_count k (count_commands lines) /\
  map fst (count_commands (lines ++ [line]))
  = (map fst (count_commands lines)
     ++ match Py.split line with
        | cmd :: _ =>
            if in_dec string_dec cmd (map fst (count_commands lines))
            then [] else [cmd]
        | [] => []
        end)%list.
Proof.
  split; [apply sorted_by_count_with_count |].
  unfold count_commands. rewrite fold_left_app. cbn [fold_left].
  fold (count_commands lines). unfold count_line.
  destruct (Py.split line) as [| cmd rest]; [now rewrite app_nil_r |].
  rewrite freq_set_keys.
  destruct (in_dec string_dec cmd (map fst (count_commands lines)));
    [now rewrite app_nil_r | reflexivity].
Qed.

Lemma top_cmds_ties_witness :
  with_count 2 (sorted_by_count
                  (count_commands ["cd a"; "ls"; "vim x"; "ls"; "cd b"]))
  = [("cd", 2%Z); ("ls", 2%Z)].
Proof.
  rewrite (proj1 (top_cmds_ties ["cd a"; "ls"; "vim x"; "ls"; "cd b"] "" 2)).
  reflexivity.
Defined.

(** ** The process table *)

Lemma populate_processes_app (a b : list (Py.Exc ProcInfo)) :
  populate_processes (a ++ b)
  = (populate_processes a ++ populate_processes b)%list.
Proof.
  induction a as [| [info |] rest IH]; simpl; [reflexivity | | exact IH].
  now rewrite IH.
Qed.

(** X14: a process whose reading raises costs its own row and nothing
    else: the table is the one the other processes alone would give, in the
    same order.  Every process that is read has its row, and a process
    without a cpu reading is shown with 0 and tagged as low. *)
Theorem populate_processes_isolation
    (before after : list (Py.Exc ProcInfo)) :
  populate_processes (before ++ Py.Raise :: after)
  = populate_processes (before ++ after) /\
  (forall info,
     populate_processes (before ++ Py.Val info :: after)
     = (populate_processes before ++ process_row info
        :: populate_processes after)%list) /\
  (List.length (populate_processes (before ++ after))
   <= List.length (before ++ after))%nat /\
  (forall info,
     info_cpu_percent info = None ->
     row_cpu (process_row info) = 0 /\
     row_tag (process_row info) = "cpu_low").
Proof.
  split; [| split; [| split]].
  - now rewrite !populate_processes_app.
  - intros info. now rewrite populate_processes_app.
  - induction (before ++ after)%list as [| [info |] rest IH]; simpl; lia.
  - intros info H. unfold process_row. rewrite H. split; reflexivity.
Qed.

Lemma populate_processes_isolation_witness :
  let idle := {| info_pid := 7; info_name := "kworker";
                 info_cpu_percent := None; info_memory_percent := None |} in
  info_cpu_percent idle = None /\
  row_tag (process_row idle) = "cpu_low".
Proof.
  intros idle.
  assert (H : info_cpu_percent idle = None) by reflexivity.
  split; [exact H |].
  exact (proj2 (proj2 (proj2 (proj2
           (populate_processes_isolation [] []))) idle H)).
Defined.

(** ** Disk usage *)

(** X15: the disk label shows whole GiB, rounded down: the number shown
    times 2^30 is at most the byte count, which is less than the next
    number times 2^30; so when the used bytes do not exceed the total, the
    used figure shown does not exceed the total shown.  The percentage is
    passed on as read. *)
Theorem get_disk_usage_floor (du : DiskUsage) :
  let '(used_gb, total_gb, percent) := get_disk_usage du in
  (used_gb * 2 ^ 30 <= du_used du < (used_gb + 1) * 2 ^ 30)%Z /\
  (total_gb * 2 ^ 30 <= du_total du < (total_gb + 1) * 2 ^ 30)%Z /\
  ((du_used du <= du_total du)%Z -> (used_gb <= total_gb)%Z) /\
  percent = du_percent du.
Proof.
  unfold get_disk_usage. cbv zeta.
  change (1024 ^ 3)%Z with (2 ^ 30)%Z.
  assert (Hpos : (0 < 2 ^ 30)%Z) by reflexivity.
  pose proof (Z.mul_div_le (du_used du) _ Hpos).
  pose proof (Z.mul_succ_div_gt (du_used du) _ Hpos).
  pose proof (Z.mul_div_le (du_total du) _ Hpos).
  pose proof (Z.mul_succ_div_gt (du_total du) _ Hpos).
  repeat split; lia.
Qed.

Lemma get_disk_usage_floor_witness :
  let du := {| du_total := 500107862016; du_used := 3221225471;
               du_percent := 6 # 10 |} in
  (du_used du <= du_total du)%Z /\
  get_disk_usage du = (2%Z, 465%Z, 6 # 10).
Proof.
  intros du. split; [simpl; lia |].
  pose proof (get_disk_usage_floor du) as H.
  destruct (get_disk_usage du) as [[used_gb total_gb] percent] eqn:E.
  destruct H as [Hu [Ht [_ Hp]]]. simpl in Hu, Ht, Hp. subst percent.
  assert (used_gb = 2%Z) by lia. assert (total_gb = 465%Z) by lia.
  subst. reflexivity.
Defined.

(** ** Deques of any capacity *)

(** X16: a deque built with [maxlen] n from any items holds the last n of
    them, and after any further appends the last n of everything it was
    given, oldest first; it never holds more than n items, and with n zero
    it stays empty. *)
Theorem deque_keeps_last (n : nat) (given pushed : list Q) :
  let d := fold_left deque_append pushed (deque_new given n) in
  items (deque_new given n) = Py.last_n n given /\
  items d = Py.last_n n (given ++ pushed)%list /\
  maxlen d = n /\
  (List.length (items d) <= n)%nat /\
  (n = 0%nat -> items d = []).
Proof.
  intros d.
  destruct (@deque_appends {| items := []; maxlen := n |} given)
    as [Hnew Hmax]; [simpl; lia |].
  fold (deque_new given n) in Hnew, Hmax. simpl in Hnew, Hmax.
  destruct (@deque_appends (deque_new given n) pushed) as [Hd Hmax'].
  { rewrite Hnew, Hmax, last_n_length. lia. }
  fold d in Hd, Hmax'. rewrite Hmax in Hd, Hmax'.
  rewrite Hnew, last_n_app_l in Hd.
  assert (Hlen : (List.length (items d) <= n)%nat).
  { rewrite Hd, last_n_length. lia. }
  repeat split; try assumption.
  intros ->. destruct (items d); [reflexivity | simpl in Hlen; lia].
Qed.

Lemma deque_keeps_last_witness :
  items (fold_left deque_append [7; 8] (deque_new [1; 2; 3; 4] 0)) = [].
Proof.
  exact (proj2 (proj2 (proj2 (proj2
           (deque_keeps_last 0 [1; 2; 3; 4] [7; 8])))) eq_refl).
Defined.

(** ** The graphs *)

Lemma max2_le_l (a b : Q) : a <= max2 a b.
Proof.
  unfold max2. destruct (Qgt_bool b a) eqn:E; [| apply Qle_refl].
  apply Qlt_le_weak, Qgt_bool_true, E.
Qed.

Lemma max2_le_r (a b : Q) : b <= max2 a b.
Proof.
  unfold max2. destruct (Qgt_bool b a) eqn:E; [apply Qle_refl |].
  apply Qgt_bool_false, E.
Qed.

Lemma fold_max2_ge (rest : list Q) (x : Q) :
  x <= fold_left max2 rest x /\
  forall v, In v rest -> v <= fold_left max2 rest x.
Proof.
  revert x. induction rest as [| y rest IH]; intros x; simpl.
  - split; [apply Qle_refl | intros v []].
  - destruct (IH (max2 x y)) as [Hx Hrest]. split.
    + eapply Qle_trans; [apply max2_le_l | exact Hx].
    + intros v [<- | Hin]; [| apply Hrest, Hin].
      eapply Qle_trans; [apply max2_le_r | exact Hx].
Qed.

Lemma max_list_ge (data : list Q) (m : Q) :
  max_list data = Py.Val m -> forall v, In v data -> v <= m.
Proof.
  destruct data as [| x rest]; simpl; [discriminate |].
  intros H. injection H as <-.
  destruct (fold_max2_ge rest x) as [Hx Hrest].
  intros v [<- | Hin]; [exact Hx | apply Hrest, Hin].
Qed.

Lemma graph_max_val_ge (max_value : Q) (data : list Q) :
  1 <= graph_max_val max_value data /\
  max_value <= graph_max_val max_value data /\
  forall v, In v data -> v <= graph_max_val max_value data.
Proof.
  unfold graph_max_val. split; [apply max2_le_r | split].
  - eapply Qle_trans; [apply max2_le_l | apply max2_le_l].
  - intros v Hin. destruct (max_list data) as [m |] eqn:E.
    + eapply Qle_trans; [exact (max_list_ge data E v Hin) |].
      eapply Qle_trans; [apply max2_le_r | apply max2_le_l].
    + destruct data; [destruct Hin | discriminate].
Qed.


Lemma graph_points_length (H : Z) (step_x scale_y : Q) (data : list Q) :
  List.length (graph_points H step_x scale_y data) = List.length data.
Proof.
  unfold graph_points.
  rewrite length_map, length_combine, length_seq. lia.
Qed.

Lemma graph_points_nth (H : Z) (step_x scale_y : Q) (data : list Q)
    (i : nat) :
  (i < List.length data)%nat ->
  nth i (graph_points H step_x scale_y data) (0, 0)
  = (inject_Z (Z.of_nat i) * step_x,
     inject_Z H - 10 - nth i data 0 * scale_y).
Proof.
  intros Hi. unfold graph_points.
  set (f := fun '(i, value) =>
              (inject_Z (Z.of_nat i) * step_x,
               inject_Z H - 10 - value * scale_y)).
  rewrite (nth_indep _ (0, 0) (f (0%nat, 0))).
  - rewrite map_nth, combine_nth by (now rewrite length_seq).
    rewrite seq_nth by exact Hi. reflexivity.
  - rewrite length_map, length_combine, length_seq. lia.
Qed.

Lemma graph_lines_length (points : list (Q * Q)) (fill : string) :
  List.length (graph_lines points fill) = (List.length points - 1)%nat.
Proof. unfold graph_lines. now rewrite length_map, length_seq. Qed.

Lemma graph_lines_nth (points : list (Q * Q)) (fill : string) (i : nat) :
  (S i < List.length points)%nat ->
  nth i (graph_lines points fill) delete_all
  = create_line (fst (nth i points (0, 0))) (snd (nth i points (0, 0)))
      (fst (nth (S i) points (0, 0))) (snd (nth (S i) points (0, 0)))
      fill 2.
Proof.
  intros Hi. unfold graph_lines.
  set (f := fun i : nat =>
              let '(x1, y1) := nth (i - 1) points (0, 0) in
              let '(x2, y2) := nth i points (0, 0) in
              create_line x1 y1 x2 y2 fill 2).
  rewrite (nth_indep _ delete_all (f 0%nat))
    by (rewrite length_map, length_seq; lia).
  rewrite map_nth, seq_nth by lia.
  unfold f. replace (1 + i - 1)%nat with i by lia.
  replace (1 + i)%nat with (S i) by lia.
  destruct (nth i points (0, 0)), (nth (S i) points (0, 0)). reflexivity.
Qed.

Lemma last_item_nonempty (data : list Q) :
  data <> [] -> exists latest, last_item data = Py.Val latest.
Proof.
  intros H. unfold last_item. destruct (rev data) as [| x rest] eqn:E.
  - exfalso. apply H. apply (f_equal (@rev Q)) in E.
    now rewrite rev_involutive in E.
  - now exists x.
Qed.

Lemma draw_line_graph_nonempty (W H : Z) (data : list Q) (max_value : Q)
    (line_color title unit extra_text : string) :
  data <> [] ->
  exists ops,
    draw_line_graph W H data max_value line_color title unit extra_text
    = Py.Val ops /\
    List.length ops = (6 + (List.length data - 1))%nat /\
    skipn 6 ops
    = graph_lines (line_graph_points W H data max_value) line_color.
Proof.
  intros Hne. unfold draw_line_graph.
  destruct (last_item_nonempty Hne) as [latest ->]. cbn [Py.bind].
  destruct (Nat.ltb_spec (List.length data) 2) as [Hshort | Hlong].
  - eexists. split; [reflexivity |].
    destruct data as [| x [| y rest]];
      [contradiction | split; reflexivity | simpl in Hshort; lia].
  - eexists. split; [reflexivity |]. split.
    + rewrite length_app, graph_lines_length.
      unfold line_graph_points. rewrite graph_points_length.
      reflexivity.
    + reflexivity.
Qed.

(** X17: [_draw_line_graph] fails on an empty list, at the title it reads
    the last item for.  On one item it draws the frame and the title only:
    six canvas calls and no line.  On n items, n at least two, it draws
    n - 1 line segments after those six. *)
Theorem draw_line_graph_count (W H : Z) (data : list Q) (max_value : Q)
    (line_color title unit extra_text : string) :
  (data = [] ->
   draw_line_graph W H data max_value line_color title unit extra_text
   = Py.Raise) /\
  (data <> [] ->
   exists ops,
     draw_line_graph W H data max_value line_color title unit extra_text
     = Py.Val ops /\
     List.length ops = (6 + (List.length data - 1))%nat /\
     skipn 6 ops
     = graph_lines (line_graph_points W H data max_value) line_color).
Proof.
  split.
  - intros ->. reflexivity.
  - apply draw_line_graph_nonempty.
Qed.

Lemma draw_line_graph_count_witness :
  [5; 20; 80] <> [] /\
  exists ops,
    draw_line_graph 300 150 [5; 20; 80] 100 "#00cc66" "CPU" "%" ""
    = Py.Val ops /\
    List.length ops = 8%nat.
Proof.
  assert (Hne : [5; 20; 80] <> ([] : list Q)) by discriminate.
  split; [exact Hne |].
  destruct (proj2 (draw_line_graph_count 300 150 [5; 20; 80] 100
                     "#00cc66" "CPU" "%" "") Hne) as [ops [Hops [Hlen _]]].
  exists ops. split; [exact Hops | exact Hlen].
Defined.

Lemma inject_Z_pos (z : Z) : (0 < z)%Z -> 0 < inject_Z z.
Proof. intros H. change 0 with (inject_Z 0). now rewrite <- Zlt_Qlt. Qed.

Lemma inject_Z_nonneg (z : Z) : (0 <= z)%Z -> 0 <= inject_Z z.
Proof. intros H. change 0 with (inject_Z 0). now rewrite <- Zle_Qle. Qed.

Lemma Qdiv_nonneg (a d : Q) : 0 <= a -> 0 < d -> 0 <= a / d.
Proof.
  intros Ha Hd. unfold Qdiv. apply Qmult_le_0_compat; [exact Ha |].
  apply Qlt_le_weak, Qinv_lt_0_compat, Hd.
Qed.

(** The ordinate [H - 10 - v * scale] for a scale that is not negative:
    it does not go up when the sample does, and a sample of zero is on the
    base line. *)
Lemma point_y_order (H : Z) (scale v w : Q) :
  0 <= scale ->
  let y := fun value => inject_Z H - 10 - value * scale in
  (0 <= v -> y v <= inject_Z H - 10) /\
  (v <= 0 -> inject_Z H - 10 <= y v) /\
  (v <= w -> y w <= y v).
Proof.
  intros Hs y. subst y. cbv beta. split; [| split].
  - intros Hv. pose proof (Qmult_le_0_compat _ _ Hv Hs). lra.
  - intros Hv.
    assert (Hle : v * scale <= 0 * scale)
      by (apply Qmult_le_compat_r; assumption).
    rewrite Qmult_0_l in Hle. lra.
  - intros Hvw.
    assert (Hle : v * scale <= w * scale)
      by (apply Qmult_le_compat_r; assumption).
    lra.
Qed.

Lemma scale_y_nonneg (H : Z) (max_val : Q) :
  (25 <= H)%Z -> 1 <= max_val -> 0 <= inject_Z (H - 25) / max_val.
Proof.
  intros HH Hm. apply Qdiv_nonneg; [apply inject_Z_nonneg; lia | lra].
Qed.

(** X18: for data of n items, n at least two, on a canvas of width W that
    is not negative, the points of [_draw_line_graph] are n in number, the
    i-th at abscissa i * (W / (n - 1)): the first at 0, none to the left of
    it, and each at least as far right as the one before.  The segments
    join each point to the next, so the line is unbroken and runs from left
    to right. *)
Theorem line_graph_polyline (W H : Z) (data : list Q) (max_value : Q)
    (line_color : string) :
  (2 <= List.length data)%nat -> (0 <= W)%Z ->
  let n := List.length data in
  let points := line_graph_points W H data max_value in
  let x := fun i => fst (nth i points (0, 0)) in
  let y := fun i => snd (nth i points (0, 0)) in
  List.length points = n /\
  (forall i, (i < n)%nat ->
     x i == inject_Z (Z.of_nat i) * (inject_Z W / inject_Z (Z.of_nat n - 1))
     /\ 0 <= x i) /\
  x 0%nat == 0 /\
  (forall i j, (i <= j)%nat -> (j < n)%nat -> x i <= x j) /\
  (forall i, (S i < n)%nat ->
     nth i (graph_lines points line_color) delete_all
     = create_line (x i) (y i) (x (S i)) (y (S i)) line_color 2).
Proof.
  intros Hn HW n points x y.
  assert (Hlen : List.length points = n).
  { unfold points, line_graph_points. apply graph_points_length. }
  assert (Hx : forall i, (i < n)%nat ->
            x i = inject_Z (Z.of_nat i)
                  * (inject_Z W / inject_Z (Z.of_nat n - 1))).
  { intros i Hi. unfold x, points, line_graph_points.
    now rewrite graph_points_nth. }
  assert (Hstep : 0 <= inject_Z W / inject_Z (Z.of_nat n - 1)).
  { apply Qdiv_nonneg; [apply inject_Z_nonneg, HW |].
    apply inject_Z_pos. fold n in Hn. lia. }
  split; [exact Hlen |]. split; [| split; [| split]].
  - intros i Hi. rewrite (Hx i Hi). split; [reflexivity |].
    apply Qmult_le_0_compat; [apply inject_Z_nonneg; lia | exact Hstep].
  - rewrite Hx by (fold n in Hn; lia). apply Qmult_0_l.
  - intros i j Hij Hj. rewrite (Hx i) by lia. rewrite (Hx j) by exact Hj.
    apply Qmult_le_compat_r; [| exact Hstep].
    rewrite <- Zle_Qle. lia.
  - intros i Hi. apply graph_lines_nth. now rewrite Hlen.
Qed.

Lemma line_graph_polyline_witness :
  let points := line_graph_points 300 150 [10; 50; 90; 30] 100 in
  (2 <= List.length [10; 50; 90; 30])%nat /\ (0 <= 300)%Z /\
  fst (nth 1 points (0, 0)) <= fst (nth 3 points (0, 0)).
Proof.
  intros points.
  assert (Hn : (2 <= List.length [10; 50; 90; 30])%nat) by (simpl; lia).
  assert (HW : (0 <= 300)%Z) by lia.
  split; [exact Hn | split; [exact HW |]].
  refine (proj1 (proj2 (proj2 (proj2
            (@line_graph_polyline 300 150 [10; 50; 90; 30] 100 "#00cc66"
               Hn HW)))) 1%nat 3%nat _ _); simpl; lia.
Defined.

(** X19: on a canvas at least 25 high, [_draw_line_graph] keeps the order
    of the samples: a sample that is not negative is drawn on or above the
    base line H - 10, a sample that is not positive on or below it, and of
    two samples the greater is never drawn lower than the other. *)
Theorem line_graph_ordinates (W H : Z) (data : list Q) (max_value : Q)
    (i j : nat) :
  (25 <= H)%Z -> (i < List.length data)%nat -> (j < List.length data)%nat ->
  let y := fun k =>
    snd (nth k (line_graph_points W H data max_value) (0, 0)) in
  let v := fun k => nth k data 0 in
  (0 <= v i -> y i <= inject_Z H - 10) /\
  (v i <= 0 -> inject_Z H - 10 <= y i) /\
  (v i <= v j -> y j <= y i).
Proof.
  intros HH Hi Hj. unfold line_graph_points. cbv zeta beta.
  rewrite !graph_points_nth by assumption. cbn [snd].
  destruct (graph_max_val_ge max_value data) as [H1 _].
  apply (point_y_order H (nth i data 0) (nth j data 0)
           (scale_y_nonneg HH H1)).
Qed.

Lemma line_graph_ordinates_witness :
  (25 <= 150)%Z /\ (0 < List.length [10; 250; 90])%nat /\
  (1 < List.length [10; 250; 90])%nat /\
  nth 0 [10; 250; 90] 0 <= nth 1 [10; 250; 90] 0 /\
  snd (nth 1 (line_graph_points 300 150 [10; 250; 90] 100) (0, 0))
  <= snd (nth 0 (line_graph_points 300 150 [10; 250; 90] 100) (0, 0)).
Proof.
  assert (HH : (25 <= 150)%Z) by lia.
  assert (Hi : (0 < List.length [10; 250; 90])%nat) by (simpl; lia).
  assert (Hj : (1 < List.length [10; 250; 90])%nat) by (simpl; lia).
  assert (Hv : nth 0 [10; 250; 90] 0 <= nth 1 [10; 250; 90] 0)
    by (simpl; unfold Qle; simpl; lia).
  split; [exact HH | split; [exact Hi | split; [exact Hj |]]].
  split; [exact Hv |].
  exact (proj2 (proj2
           (@line_graph_ordinates 300 150 [10; 250; 90] 100 0 1 HH Hi Hj))
           Hv).
Defined.

(** After any run of sampling calls from [__init__], each history holds
    sixty items. *)
Lemma reachable_histories (first_counters : NetIO) (first_time : Q)
    (rs : list Readings) :
  let self := run (init first_counters first_time) rs in
  List.length (items (cpu_history self)) = 60%nat /\
  List.length (items (ram_history self)) = 60%nat /\
  List.length (items (net_down_history self)) = 60%nat /\
  List.length (items (net_up_history self)) = 60%nat.
Proof.
  intros self.
  destruct (init_histories first_counters first_time)
    as [[Ic Mc] [[Ir Mr] [[Id Md] [Iu Mu]]]].
  destruct (run_histories (init first_counters first_time) rs)
    as [Hc [Hr [Hd Hu]]].
  fold self in Hc, Hr, Hd, Hu. rewrite Hc, Hr, Hd, Hu.
  repeat split; eapply history_after_pushes; eassumption.
Qed.

(** X20: in a running manager [update_graphs] does not fail: the histories
    hold sixty items each, so the last item a title reads is always there.
    After any number of sampling calls it draws all three graphs, with 59
    segments on the cpu graph, 59 on the ram graph, and 59 for each
    direction on the network graph. *)
Theorem update_graphs_reachable (first_counters : NetIO) (first_time : Q)
    (rs : list Readings) (W H Wnet : Z) :
  let self := run (init first_counters first_time) rs in
  exists g,
    update_graphs W H Wnet self = Py.Val g /\
    List.length (cpu_canvas g) = (6 + 59)%nat /\
    List.length (ram_canvas g) = (6 + 59)%nat /\
    List.length (net_canvas g) = (5 + 59 + 59 + 2)%nat.
Proof.
  intros self.
  destruct (reachable_histories first_counters first_time rs)
    as [Lc [Lr [Ld Lu]]]. fold self in Lc, Lr, Ld, Lu.
  assert (Nc : items (cpu_history self) <> [])
    by (intros E; rewrite E in Lc; discriminate).
  assert (Nr : items (ram_history self) <> [])
    by (intros E; rewrite E in Lr; discriminate).
  unfold update_graphs.
  destruct (draw_line_graph_nonempty W H 100 "#00cc66" "CPU" "%" "" Nc)
    as [cpu_ops [-> [Hcl _]]].
  destruct (draw_line_graph_nonempty W H 100 "#cc66ff" "RAM" "%" "" Nr)
    as [ram_ops [-> [Hrl _]]].
  cbn [Py.bind]. eexists. split; [reflexivity |].
  cbn [cpu_canvas ram_canvas net_canvas].
  rewrite Hcl, Hrl, Lc, Lr.
  repeat split.
  rewrite !length_app, !graph_lines_length.
  unfold net_points. rewrite !graph_points_length, Ld, Lu. reflexivity.
Qed.



(** ** The button handlers *)

(** X22: the handler calls [terminate] only after asking.  If a
    [Terminate] is among its events, a row was selected, the process is the
    one of the first selected row, the question naming it was asked just
    before, and the answer was yes; [terminate] is called on nothing else,
    however many rows are selected. *)
Theorem kill_needs_confirmation (env : KillEnv) (pid : Z) :
  In (Terminate pid) (fst (kill_selected_process env)) ->
  exists others name after,
    selected env = pid :: others /\
    process_name env pid = inl name /\
    answer env = true /\
    fst (kill_selected_process env)
    = kill_question name pid :: Terminate pid :: after /\
    ~ In (Terminate pid) after /\
    forall other, In (Terminate other) after -> False.
Proof.
  unfold kill_selected_process, kill_question.
  destruct (selected env) as [| first others];
    [cbn; intuition discriminate |].
  destruct (process env first) as [[] |];
    [cbn; intuition discriminate .. |].
  destruct (process_name env first) as [name | []] eqn:En;
    [| cbn; intuition discriminate ..].
  destruct (answer env); [| cbn; intuition discriminate].
  destruct (terminate env first) as [[] |]; cbn; intros Hin;
    (assert (E : pid = first)
       by (repeat (destruct Hin as [Hin | Hin]);
           try discriminate; try contradiction; congruence));
    subst pid; exists others, name; eexists;
    (split; [reflexivity |]); (split; [exact En |]);
    (split; [reflexivity |]); (split; [reflexivity |]);
    cbn; split; intuition discriminate.
Qed.

Lemma kill_needs_confirmation_witness :
  let env := {| selected := [4242%Z; 17%Z];
                process := fun _ => None;
                process_name := fun _ => inl "firefox";
                answer := true;
                terminate := fun _ => None |} in
  In (Terminate 4242) (fst (kill_selected_process env)) /\
  exists others name after,
    selected env = 4242%Z :: others /\
    process_name env 4242 = inl name /\
    answer env = true /\
    fst (kill_selected_process env)
    = kill_question name 4242 :: Terminate 4242 :: after /\
    ~ In (Terminate 4242) after /\
    forall other, In (Terminate other) after -> False.
Proof.
  intros env.
  assert (H : In (Terminate 4242) (fst (kill_selected_process env)))
    by (right; left; reflexivity).
  split; [exact H |].
  exact (kill_needs_confirmation env 4242 H).
Defined.

(** X23: when a row is selected, its process is found and named, the
    user answers yes and [terminate] raises nothing, the handler asks,
    calls [terminate], shows the "Done" message and reloads the table, in
    that order and with no error.  In no other case does it show an
    information message or reload the table.  The errors it catches, a
    process that is gone or is not the user's to end, never leave the
    handler; only another error does.  With no row selected it shows the
    "No selection" warning and nothing else. *)
Theorem kill_selected_process_outcome (env : KillEnv) :
  (forall pid others name,
     selected env = pid :: others ->
     process env pid = None ->
     process_name env pid = inl name ->
     answer env = true ->
     terminate env pid = None ->
     kill_selected_process env
     = ([kill_question name pid; Terminate pid;
         Show (showinfo "Done" ("Process " ++ name ++ " terminated."));
         Repopulate], None)) /\
  (In Repopulate (fst (kill_selected_process env)) \/
   (exists title message,
      In (Show (showinfo title message)) (fst (kill_selected_process env))) ->
   exists pid others name,
     selected env = pid :: others /\
     process env pid = None /\
     process_name env pid = inl name /\
     answer env = true /\
     terminate env pid = None) /\
  (snd (kill_selected_process env) = None \/
   snd (kill_selected_process env) = Some OtherError) /\
  (selected env = [] ->
   kill_selected_process env
   = ([Show (showwarning "No selection" "Please select a process first.")],
      None)).
Proof.
  unfold kill_selected_process, kill_question.
  split; [| split; [| split]].
  - intros pid others name Hs Hp Hn Ha Ht.
    now rewrite Hs, Hp, Hn, Ha, Ht.
  - destruct (selected env) as [| pid others];
      [cbn; intros [[H | []] | [t [m [H | []]]]]; discriminate |].
    destruct (process env pid) as [[] |] eqn:Ep;
      [cbn; intros [H | [t [m H]]]; intuition discriminate .. |].
    destruct (process_name env pid) as [name | []] eqn:En;
      [| cbn; intros [H | [t [m H]]]; intuition discriminate ..].
    destruct (answer env) eqn:Ea;
      [| cbn; intros [H | [t [m H]]]; intuition discriminate].
    destruct (terminate env pid) as [[] |] eqn:Et;
      [cbn; intros [H | [t [m H]]]; intuition discriminate .. |].
    intros _. exists pid, others, name. repeat split; assumption.
  - destruct (selected env) as [| pid others]; [now left |].
    destruct (process env pid) as [[] |]; cbn; auto.
    destruct (process_name env pid) as [name | []]; cbn; auto.
    destruct (answer env); cbn; auto.
    destruct (terminate env pid) as [[] |]; cbn; auto.
  - intros Hs. now rewrite Hs.
Qed.

Lemma kill_selected_process_outcome_witness :
  let env := {| selected := [4242%Z; 17%Z];
                process := fun _ => None;
                process_name := fun _ => inl "firefox";
                answer := true;
                terminate := fun _ => None |} in
  kill_selected_process env
  = ([Show (askyesno "Confirm" "End process firefox (PID 4242)?");
      Terminate 4242;
      Show (showinfo "Done" "Process firefox terminated.");
      Repopulate], None).
Proof.
  intros env.
  exact (proj1 (kill_selected_process_outcome env) 4242%Z [17%Z] "firefox"
           eq_refl eq_refl eq_refl eq_refl eq_refl).
Defined.

(** ** backup_projects *)

Lemma backup_name_relative (env : BackupEnv) :
  Py.startswith (backup_name env) "/" = false.
Proof. reflexivity. Qed.

(** X24: the backup handler runs one command at most, the tar command whose
    archive goes into the folder the user picked, and only when the
    Projects folder exists and a folder was picked.  It reports the backup
    as complete exactly when that command was run and ended with return
    code 0; a command that cannot be run or ends with another code gives
    the error dialog instead. *)
Theorem backup_projects_outcome (env : BackupEnv) :
  let events := backup_projects env in
  let ready :=
    backup_path_exists env (Py.path_join (home env) "Projects") = true /\
    backup_dir env <> "" in
  (forall cmd, In (Run cmd) events -> cmd = tar_cmd env /\ ready) /\
  (ready -> exists dialog, events = [Run (tar_cmd env); Show dialog]) /\
  ((exists message,
      In (Show (showinfo "Backup Complete" message)) events) <->
   ready /\
   exists result,
     backup_run env (tar_cmd env) = Py.Val result /\
     returncode result = 0%Z) /\
  (backup_dir env <> "" ->
   exists sep,
     (sep = "" \/ sep = "/") /\
     backup_dest env = backup_dir env ++ sep ++ backup_name env).
Proof.
  cbv zeta. unfold backup_projects, run_checked, Py.truthy.
  split; [| split; [| split]].
  - intros cmd.
    destruct (backup_path_exists env _); cbn [negb];
      [| cbn; intuition discriminate].
    rewrite negb_involutive.
    destruct (backup_dir env) as [| c d] eqn:Ed; cbn [Py.is_empty];
      [cbn; tauto |].
    destruct (Py.bind _ _); cbn; intros [H | [H | []]]; try discriminate;
      injection H as <-; repeat split; discriminate.
  - intros [Hex Hdir]. rewrite Hex. cbn [negb]. rewrite negb_involutive.
    destruct (backup_dir env) as [| c d] eqn:Ed; [contradiction |].
    cbn [Py.is_empty]. destruct (Py.bind _ _); eexists; reflexivity.
  - destruct (backup_path_exists env _); cbn [negb].
    + rewrite negb_involutive.
      destruct (backup_dir env) as [| c d] eqn:Ed; cbn [Py.is_empty].
      * split; [intros [m []] | intros [[_ H] _]; contradiction].
      * destruct (backup_run env (tar_cmd env)) as [result |];
          cbn [Py.bind].
        -- destruct (Z.eqb_spec (returncode result) 0) as [Hc | Hc].
           ++ split.
              ** intros _. split; [split; [reflexivity | discriminate] |].
                 now exists result.
              ** intros _. eexists. right. left. reflexivity.
           ++ split.
              ** intros [m [H | [H | []]]]; discriminate.
              ** intros [_ [r [Hr Hz]]]. injection Hr as <-. contradiction.
        -- split.
           ++ intros [m [H | [H | []]]]; discriminate.
           ++ intros [_ [r [Hr _]]]. discriminate.
    + split; [intros [m [H | []]]; discriminate |].
      intros [[H _] _]. discriminate.
  - intros Hdir. unfold backup_dest, Py.path_join.
    fold (backup_name env). rewrite backup_name_relative.
    destruct (backup_dir env) as [| c d] eqn:Ed; [contradiction |].
    cbn [Py.is_empty orb].
    destruct (Py.endswith (String c d) "/").
    + exists "". split; [now left | reflexivity].
    + exists "/". split; [now right | reflexivity].
Qed.

Lemma backup_projects_outcome_witness :
  let env := {| home := "/home/kali";
                backup_path_exists := fun p => String.eqb p "/home/kali/Projects";
                backup_dir := "/mnt/usb";
                timestamp := "20250101_120000";
                backup_run := fun _ => completed 0 "";
                backup_error := "" |} in
  (backup_path_exists env (Py.path_join (home env) "Projects") = true /\
   backup_dir env <> "") /\
  exists message,
    In (Show (showinfo "Backup Complete" message)) (backup_projects env).
Proof.
  intros env.
  assert (Hready :
    backup_path_exists env (Py.path_join (home env) "Projects") = true /\
    backup_dir env <> "") by (split; [reflexivity | discriminate]).
  split; [exact Hready |].
  apply (proj2 (proj1 (proj2 (proj2 (backup_projects_outcome env))))).
  split; [exact Hready |].
  exists {| returncode := 0; stdout := "" |}. split; reflexivity.
Defined.

(** ** Which history file is read *)

(** X25: the bash history takes precedence.  When it exists, the zsh
    history is not looked at: two hosts that expand the two names alike and
    hold the same bash history get the same safety answer and the same
    study figures, whatever their zsh histories hold. *)
Theorem bash_history_first (h1 h2 : Host) :
  expanduser h1 "~/.bash_history" = expanduser h2 "~/.bash_history" ->
  path_exists h1 (expanduser h1 "~/.bash_history") = true ->
  path_exists h2 (expanduser h2 "~/.bash_history") = true ->
  read_lines h1 (expanduser h1 "~/.bash_history")
  = read_lines h2 (expanduser h2 "~/.bash_history") ->
  get_history_file h1 = Some (expanduser h1 "~/.bash_history") /\
  get_safety_check h1 = get_safety_check h2 /\
  get_study_stats h1 = get_study_stats h2.
Proof.
  intros Hname H1 H2 Hread.
  assert (F1 : get_history_file h1 = Some (expanduser h1 "~/.bash_history"))
    by (unfold get_history_file; now rewrite H1).
  assert (F2 : get_history_file h2 = Some (expanduser h2 "~/.bash_history"))
    by (unfold get_history_file; now rewrite H2).
  split; [exact F1 |].
  unfold get_safety_check, get_study_stats.
  rewrite F1, F2, Hread, Hname. split; reflexivity.
Qed.

Lemma bash_history_first_witness :
  let h1 :=
    {| expanduser := fun p => p; path_exists := fun _ => true;
       subprocess_run := fun _ => Py.Raise;
       read_lines := fun p =>
         if String.eqb p "~/.bash_history" then Py.Val ["ls"]
         else Py.Val ["mkfs /dev/sda"] |} in
  let h2 :=
    {| expanduser := fun p => p; path_exists := fun _ => true;
       subprocess_run := fun _ => Py.Raise;
       read_lines := fun _ => Py.Val ["ls"] |} in
  get_safety_check h1 = get_safety_check h2 /\
  get_safety_check h1 = all_clear.
Proof.
  intros h1 h2.
  assert (E : get_safety_check h1 = get_safety_check h2).
  { exact (proj1 (proj2 (bash_history_first h1 h2
                           eq_refl eq_refl eq_refl eq_refl))). }
  split; [exact E | reflexivity].
Defined.
